(** * Truck tracker: the location-history engine of [simple_app_fixed.py]

    A shallow embedding of the movement classifier, the legacy daily
    aggregate, the ingest pipeline and the two-backend persistence layer,
    together with the properties the specification states about them.

    Conventions of the embedding.
    - A Python [float] is a binary64 value: Rocq's primitive [float], with
      the same rounding.  Python integers that only ever meet floats
      ([0], [300], [3600]) are written as the float of the same value; an
      integer that is produced by [int(...)] is a [Z].
    - [time.time()] is an input: every function that reads the clock takes
      the reading as an argument.
    - [math.sin], [math.cos], [math.atan2] and the local-time calendar of
      [datetime] have no counterpart on primitive floats: the great-circle
      distance and the calendar functions are variables of the sections
      below, so every theorem holds whatever they compute.  In the engine
      the distance and the date of a time stamp are taken to return on
      every input: what is proved of the ingest pipeline is proved of the
      runs in which they do.  [Partial] gives the functions that call the
      distance outside any [try] once more, with the distance partial.
    - An exception is a value: a function that can raise returns a [result].
      [print] calls are not modelled. *)

From Stdlib Require Import ZArith Floats.
From stdpp Require Import base option list gmap strings.

Set Warnings "-inexact-float,-register-all".
Local Open Scope Z_scope.

(** ** Python values *)

Inductive exn : Type :=
  | ZeroDivisionError
  | ValueError
  | OverflowError
  | TypeError
  | KeyError
  | AttributeError
  | OSError
  | ConnectionError
  | JSONDecodeError.

Inductive result (A : Type) : Type :=
  | Ok (a : A)
  | Raise (e : exn).
Arguments Ok {A} a.
Arguments Raise {A} e.

Definition bind {A B : Type} (r : result A) (k : A -> result B) : result B :=
  match r with
  | Ok a => k a
  | Raise e => Raise e
  end.

Notation "'do' x <- r ; k" := (bind r (fun x => k))
  (at level 10, x name, r at level 100, k at level 200).

(** [x / y] on floats: Python raises where IEEE 754 returns an infinity or
    a NaN. *)
Definition py_div (x y : float) : result float :=
  if (y =? 0)%float then Raise ZeroDivisionError else Ok (x / y)%float.

(** [int(x)]: truncation toward zero; [int(inf)] and [int(nan)] raise. *)
Definition py_int (x : float) : result Z :=
  match Prim2SF x with
  | S754_zero _ => Ok 0
  | S754_finite s m e => Ok (cond_Zopp s (Z.shiftl (Z.pos m) e))
  | S754_infinity _ => Raise OverflowError
  | S754_nan => Raise ValueError
  end.

(** The float an integer is converted to when it meets a float in an
    arithmetic operation (round to nearest, ties to even). *)
Definition float_of_Z (z : Z) : float :=
  SF2Prim (binary_normalize prec emax z 0 false).

(** Truth value of a float in a condition: every float but the two zeros. *)
Definition float_truthy (x : float) : bool := negb (x =? 0)%float.

(** ** Data model *)

(** One GPS observation, an element of [location_data["history"]]. *)
Record point : Type := Point {
  latitude : float;
  longitude : float;
  timestamp : float
}.

(** [location_data["driver"]]. *)
Record driver_state : Type := Driver {
  drv_latitude : float;
  drv_longitude : float;
  last_updated : float;
  speed : float;
  stopped_since : option float;
  last_position : option (float * float)
}.

Inductive movement : Type := Moving | Stopped | Unknown.

Definition MAX_REALISTIC_SPEED : float := 90.

Definition is_realistic_speed (speed_mph : float) : bool :=
  (0 <=? speed_mph)%float && (speed_mph <=? MAX_REALISTIC_SPEED)%float.

(** ** Legacy daily aggregate and in-memory state *)

(** One entry of the module-level [daily_stats] dictionary.  A key that
    the code creates with the value [None], or leaves out and later reads
    with [.get], is an [option]; ["last_movement_update"], whose presence
    the code tests with [in], is [None] when the key is absent. *)
Record day_stats : Type := DayStats {
  total_miles : float;
  start_time : float;
  start_location : option (float * float);
  end_location : option (float * float);
  first_movement_time : option float;
  last_movement_time : option float;
  total_travel_time : float;
  last_update_time : float;
  last_movement_update : option float
}.

(** Calls into the persistence layer and the daily track store, in the
    order the engine makes them.  They write the backends and never change
    the in-memory state below; the backends are modelled further down. *)
Inductive io_call : Type :=
  | save_historical_data_call (history : list point)
  | save_daily_stats_call (stats : gmap string day_stats)
  | save_last_location_call (lat lng ts : float)
  | update_daily_tracking_call (lat lng ts speed : float) (is_moving : bool).

(** The module-level state: [location_data], [daily_stats], and the calls
    issued so far. *)
Record tracker : Type := Tracker {
  driver : driver_state;
  history : list point;
  daily_stats : gmap string day_stats;
  io_log : list io_call
}.

Definition with_driver (d : driver_state) (w : tracker) : tracker :=
  {| driver := d; history := history w;
     daily_stats := daily_stats w; io_log := io_log w |}.

Definition with_history (h : list point) (w : tracker) : tracker :=
  {| driver := driver w; history := h;
     daily_stats := daily_stats w; io_log := io_log w |}.

Definition with_daily_stats (s : gmap string day_stats) (w : tracker) : tracker :=
  {| driver := driver w; history := history w;
     daily_stats := s; io_log := io_log w |}.

Definition call (c : io_call) (w : tracker) : tracker :=
  {| driver := driver w; history := history w;
     daily_stats := daily_stats w; io_log := io_log w ++ [c] |}.

Definition with_stopped_since (s : option float) (d : driver_state) : driver_state :=
  {| drv_latitude := drv_latitude d; drv_longitude := drv_longitude d;
     last_updated := last_updated d; speed := speed d;
     stopped_since := s; last_position := last_position d |}.

(** The clock readings of one ingest, in the order [time.time()] is
    called. *)
Record clock : Type := Clock {
  clk_ingest : float;    (* process_fetched_location *)
  clk_trim : float;      (* trim_history_hours *)
  clk_speed_1 : float;   (* calculate_speed(1) *)
  clk_speed_5 : float;   (* calculate_speed(5) *)
  clk_status : float;    (* get_movement_status *)
  clk_duration : float   (* get_stopped_duration *)
}.

(** [l[-2]]. *)
Definition penultimate {A : Type} (l : list A) : option A := rev l !! 1%nat.

(** ** The engine *)

Section Engine.

(** [date.fromtimestamp(t).isoformat()], in the local time zone. *)
Variable date_of_timestamp : float -> string.

(** *** Movement classifier *)

(** [haversine_distance lat1 lon1 lat2 lon2], in miles. *)
Variable haversine_distance : float -> float -> float -> float -> float.

Definition distance_between (a b : point) : float :=
  haversine_distance (latitude a) (longitude a) (latitude b) (longitude b).

(** [list.sort(key=lambda x: x['timestamp'])]: a stable sort.  The lists
    sorted here went through the window filter, which a NaN timestamp
    does not pass, so the keys are totally ordered and every stable sort
    returns the same list. *)
Fixpoint insert_by_timestamp (p : point) (l : list point) : list point :=
  match l with
  | [] => [p]
  | q :: l' =>
      if (timestamp p <? timestamp q)%float then p :: q :: l'
      else q :: insert_by_timestamp p l'
  end.

Definition sort_by_timestamp (l : list point) : list point :=
  fold_left (fun acc p => insert_by_timestamp p acc) l [].

Definition get_positions_in_window
    (history : list point) (end_time window_seconds : float) : list point :=
  let start_time := (end_time - window_seconds)%float in
  let positions :=
    filter (fun p => (start_time <=? timestamp p)%float
                     && (timestamp p <=? end_time)%float = true) history in
  sort_by_timestamp positions.

(** The loop [for i in range(1, len(positions))], which adds the length
    of the segment [positions[i-1] -> positions[i]] to [total]. *)
Fixpoint path_distance (total : float) (positions : list point) : float :=
  match positions with
  | prev :: (curr :: _) as rest =>
      path_distance (total + distance_between prev curr)%float rest
  | _ => total
  end.

Definition compute_window_distance
    (history : list point) (end_time window_seconds : float) : float :=
  let positions := get_positions_in_window history end_time window_seconds in
  if (length positions <? 2)%nat then 0%float
  else path_distance 0 positions.

(** [compute_window_distance(end_ts, 300) > 0.028]: the five minutes that
    end at [end_ts] show a displacement above about 150 feet. *)
Definition window_shows_movement (history : list point) (end_ts : float) : bool :=
  (0.028 <? compute_window_distance history end_ts 300)%float.

(** [for pos in reversed(history): ... break]: the timestamp of the
    latest history entry that passes [test], or [otherwise]. *)
Definition scan_back (test : float -> bool) (history : list point)
    (otherwise : float) : float :=
  match find (fun pos => test (timestamp pos)) (rev history) with
  | Some pos => timestamp pos
  | None => otherwise
  end.

Definition get_movement_status
    (history : list point) (driver : driver_state) (current_time : float)
    : movement * option float :=
  if (length history <? 2)%nat then (Stopped, stopped_since driver)
  else
    let total_distance :=
      compute_window_distance history current_time 300 in
    let classify :=
      let is_moving := (0.028 <? total_distance)%float in
      if is_moving then
        (Moving,
         Some (scan_back
                 (fun end_ts =>
                    (compute_window_distance history end_ts 300
                     <=? 0.028)%float)
                 history current_time))
      else
        (Stopped,
         Some (scan_back (window_shows_movement history) history current_time)) in
    if (total_distance <? 0.0001)%float then
      let recent_positions :=
        get_positions_in_window history current_time 300 in
      if (length recent_positions <? 2)%nat then (Unknown, None) else classify
    else classify.

Definition get_stopped_duration
    (history : list point) (current_time : float) : result Z :=
  if (length history <? 2)%nat then Ok 0
  else
    let recent_distance := compute_window_distance history current_time 300 in
    if (0.028 <? recent_distance)%float then Ok 0
    else
      let last_moving_time :=
        timestamp <$>
          find (fun pos => window_shows_movement history (timestamp pos))
               (rev history) in
      let since_oldest :=
        let oldest_ts :=
          match history with
          | oldest :: _ => timestamp oldest
          | [] => current_time
          end in
        py_int (current_time - oldest_ts)%float in
      match last_moving_time with
      | Some t =>
          if float_truthy t then py_int (current_time - t)%float
          else since_oldest
      | None => since_oldest
      end.

(** *** Legacy daily stats *)

(** [save_daily_stats(daily_stats)], with the dictionary as it is at the
    time of the call. *)
Definition persist_daily_stats (w : tracker) : tracker :=
  call (save_daily_stats_call (daily_stats w)) w.

Definition update_daily_stats
    (distance_miles current_time lat lng : float) (w : tracker) : tracker :=
  let today := date_of_timestamp current_time in
  let stats :=
    match daily_stats w !! today with
    | Some _ => daily_stats w
    | None =>
        <[today := {| total_miles := 0;
                      start_time := current_time;
                      start_location := None;
                      end_location := None;
                      first_movement_time := None;
                      last_movement_time := None;
                      total_travel_time := 0;
                      last_update_time := current_time;
                      last_movement_update := None |}]> (daily_stats w)
    end in
  let stats :=
    alter (fun e =>
             {| total_miles := (total_miles e + distance_miles)%float;
                start_time := start_time e;
                start_location := start_location e;
                end_location := Some (lat, lng);
                first_movement_time := first_movement_time e;
                last_movement_time := Some current_time;
                total_travel_time := total_travel_time e;
                last_update_time := current_time;
                last_movement_update := last_movement_update e |})
          today stats in
  persist_daily_stats (with_daily_stats stats w).

Definition set_daily_start_location
    (lat lng current_time : float) (w : tracker) : tracker :=
  let today := date_of_timestamp current_time in
  let stats :=
    match daily_stats w !! today with
    | Some _ => daily_stats w
    | None =>
        <[today := {| total_miles := 0;
                      start_time := current_time;
                      start_location := None;
                      end_location := None;
                      first_movement_time := None;
                      last_movement_time := None;
                      total_travel_time := 0;
                      last_update_time := current_time;
                      last_movement_update := None |}]> (daily_stats w)
    end in
  match stats !! today with
  | Some e =>
      match start_location e with
      | None =>
          let e' :=
            {| total_miles := total_miles e;
               start_time := start_time e;
               start_location := Some (lat, lng);
               end_location := end_location e;
               first_movement_time := Some current_time;
               last_movement_time := last_movement_time e;
               total_travel_time := total_travel_time e;
               last_update_time := last_update_time e;
               last_movement_update := last_movement_update e |} in
          persist_daily_stats (with_daily_stats (<[today := e']> stats) w)
      | Some _ => with_daily_stats stats w
      end
  | None => with_daily_stats stats w
  end.

Definition update_travel_time
    (current_time : float) (is_moving : bool) (w : tracker) : tracker :=
  let today := date_of_timestamp current_time in
  match daily_stats w !! today with
  | Some e =>
      let total :=
        match is_moving, last_movement_update e with
        | true, Some last =>
            let time_diff := (current_time - last)%float in
            (total_travel_time e + time_diff)%float
        | _, _ => total_travel_time e
        end in
      let last' :=
        if is_moving then Some current_time else last_movement_update e in
      let e' :=
        {| total_miles := total_miles e;
           start_time := start_time e;
           start_location := start_location e;
           end_location := end_location e;
           first_movement_time := first_movement_time e;
           last_movement_time := last_movement_time e;
           total_travel_time := total;
           last_update_time := last_update_time e;
           last_movement_update := last' |} in
      persist_daily_stats (with_daily_stats (<[today := e']> (daily_stats w)) w)
  | None => w
  end.

(** *** Windowed speeds *)

(** The speed a segment implies: [dist / (dt / 3600)], miles per hour. *)
Definition segment_speed (dist dt : float) : result float :=
  py_div dist (dt / 3600)%float.

Definition calculate_speed
    (history : list point) (minutes now : float) : result float :=
  if (length history <? 2)%nat then Ok 0%float
  else
    let recent_locations :=
      filter (fun loc => (now - timestamp loc <=? minutes * 60)%float = true)
             history in
    match recent_locations, last recent_locations with
    | oldest :: _ :: _, Some newest =>
        let distance_miles := distance_between oldest newest in
        let time_hours := ((timestamp newest - timestamp oldest) / 3600)%float in
        if (0 <? time_hours)%float then
          do calculated_speed <- py_div distance_miles time_hours;
          if is_realistic_speed calculated_speed
          then Ok calculated_speed else Ok 0%float
        else Ok 0%float
    | _, _ => Ok 0%float
    end.

Definition calculate_vehicle_icon_speed
    (history : list point) (now_1 now_5 : float) : result float :=
  do one_min_speed <- calculate_speed history 1 now_1;
  if (0 <? one_min_speed)%float then Ok one_min_speed
  else
    do five_min_speed <- calculate_speed history 5 now_5;
    if (0 <? five_min_speed)%float then Ok five_min_speed
    else Ok 0%float.

(** One iteration of the loop of [calculate_average_moving_speed] on the
    segment [prev_loc -> curr_loc]; [acc] is
    [(total_distance, total_time)]. *)
Definition moving_segment_step
    (acc : float * float) (prev_loc curr_loc : point) : result (float * float) :=
  let distance := distance_between prev_loc curr_loc in
  let time_diff := (timestamp curr_loc - timestamp prev_loc)%float in
  do seg_speed <-
    (if (0 <? time_diff)%float then segment_speed distance time_diff
     else Ok 0%float);
  if is_realistic_speed seg_speed && (0.5 <? seg_speed)%float
  then Ok ((fst acc + distance)%float, (snd acc + time_diff)%float)
  else Ok acc.

(** The loop [for i in range(1, len(recent_locations))]. *)
Fixpoint moving_segments_loop
    (acc : float * float) (locations : list point) : result (float * float) :=
  match locations with
  | prev_loc :: (curr_loc :: _) as rest =>
      do acc' <- moving_segment_step acc prev_loc curr_loc;
      moving_segments_loop acc' rest
  | _ => Ok acc
  end.

Definition calculate_average_moving_speed
    (history : list point) (minutes now : float) : result float :=
  if (length history <? 2)%nat then Ok 0%float
  else
    let recent_locations :=
      filter (fun loc => (now - timestamp loc <=? minutes * 60)%float = true)
             history in
    if (length recent_locations <? 2)%nat then Ok 0%float
    else
      do totals <- moving_segments_loop (0%float, 0%float) recent_locations;
      let '(total_distance, total_time) := totals in
      if (0 <? total_time)%float then
        do avg_speed <- segment_speed total_distance total_time;
        if is_realistic_speed avg_speed then Ok avg_speed else Ok 0%float
      else Ok 0%float.

(** *** Ingest pipeline *)

(** [calculate_distance_simple] repeats the formula of
    [haversine_distance]. *)
Definition calculate_distance_simple := haversine_distance.

Definition detect_last_position_movement
    (d : driver_state) (new_lat new_lng : float) : bool * float :=
  match last_position d with
  | None => (true, 0%float)
  | Some (last_lat, last_lng) =>
      let dist := calculate_distance_simple last_lat last_lng new_lat new_lng in
      ((0.009 <? dist)%float, dist)
  end.

Definition append_history_point (lat lng ts : float) (w : tracker) : tracker :=
  with_history (history w ++ [Point lat lng ts]) w.

Definition trim_history_hours (hours now : float) (w : tracker) : tracker :=
  let cutoff := (now - hours * 3600)%float in
  with_history
    (filter (fun loc => (cutoff <=? timestamp loc)%float = true) (history w)) w.

Definition periodic_persist_history (w : tracker) : tracker :=
  if (length (history w) mod 3 =? 0)%nat
  then call (save_historical_data_call (history w)) w
  else w.

Definition handle_segment_update_for_new_point
    (new_lat new_lng current_time : float) (w : tracker) : tracker * result bool :=
  if (length (history w) <? 2)%nat then (w, Ok false)
  else
    match penultimate (history w) with
    | None => (w, Ok false)
    | Some prev_location =>
        let seg_dist :=
          haversine_distance (latitude prev_location) (longitude prev_location)
                             new_lat new_lng in
        let seg_dt := (current_time - timestamp prev_location)%float in
        if (seg_dt <=? 0)%float then (w, Ok false)
        else
          match segment_speed seg_dist seg_dt with
          | Raise e => (w, Raise e)
          | Ok seg_speed =>
              if is_realistic_speed seg_speed && (0.001 <? seg_dist)%float then
                let w := update_daily_stats seg_dist current_time new_lat new_lng w in
                let w := set_daily_start_location new_lat new_lng current_time w in
                (w, Ok true)
              else (w, Ok false)
          end
    end.

Definition compute_segment_moving_flag_for_new_point
    (new_lat new_lng current_time : float) (w : tracker) : result bool :=
  if (length (history w) <? 2)%nat then Ok false
  else
    match penultimate (history w) with
    | None => Ok false
    | Some prev_location =>
        let seg_dt := (current_time - timestamp prev_location)%float in
        if (seg_dt <=? 0)%float then Ok false
        else
          let seg_dist :=
            haversine_distance (latitude prev_location) (longitude prev_location)
                               new_lat new_lng in
          do seg_speed <- segment_speed seg_dist seg_dt;
          Ok ((0.5 <? seg_speed)%float && is_realistic_speed seg_speed)
    end.

(** The body of [update_driver_state] runs under [try]: when
    [get_stopped_duration] raises, the fields assigned before the call
    keep their new values and [stopped_since] keeps its old one. *)
Definition update_driver_state
    (lat lng current_time current_speed now_status now_duration : float)
    (w : tracker) : tracker :=
  let d :=
    {| drv_latitude := lat; drv_longitude := lng;
       last_updated := current_time; speed := current_speed;
       stopped_since := stopped_since (driver w);
       last_position := Some (lat, lng) |} in
  let w := with_driver d w in
  let '(movement_status, _) := get_movement_status (history w) d now_status in
  match movement_status with
  | Stopped =>
      match get_stopped_duration (history w) now_duration with
      | Ok stopped_secs =>
          if (300 <=? stopped_secs)%Z then
            match stopped_since d with
            | None =>
                with_driver
                  (with_stopped_since
                     (Some (current_time - float_of_Z stopped_secs)%float) d) w
            | Some _ => w
            end
          else with_driver (with_stopped_since None d) w
      | Raise _ => w
      end
  | _ => with_driver (with_stopped_since None d) w
  end.

(** [process_fetched_location(location)] returns [(success, has_moved)].
    An exception in a step ends the ingest with [(False, False)]; what
    the earlier steps did stays done.  The message printed at the end
    rounds [current_speed], which is 0 or a realistic speed, and raises
    nothing.  [new_lat] and [new_lng] are the floats [location] holds
    under ['latitude'] and ['longitude']: the [KeyError] of a look-up
    that fails and the [ValueError] of a distance that fails are outside
    this model, in which an ingest fails only where a division does. *)
Definition process_fetched_location
    (new_lat new_lng : float) (clk : clock) (w : tracker)
    : tracker * (bool * bool) :=
  let current_time := clk_ingest clk in
  let '(has_moved, distance_moved) :=
    detect_last_position_movement (driver w) new_lat new_lng in
  let w := append_history_point new_lat new_lng current_time w in
  let w := periodic_persist_history w in
  let w := trim_history_hours 1 (clk_trim clk) w in
  match handle_segment_update_for_new_point new_lat new_lng current_time w with
  | (w, Raise _) => (w, (false, false))
  | (w, Ok _) =>
      match calculate_vehicle_icon_speed
              (history w) (clk_speed_1 clk) (clk_speed_5 clk) with
      | Raise _ => (w, (false, false))
      | Ok current_speed =>
          match compute_segment_moving_flag_for_new_point
                  new_lat new_lng current_time w with
          | Raise _ => (w, (false, false))
          | Ok is_moving_segment =>
              let w := update_travel_time current_time is_moving_segment w in
              let w := call (update_daily_tracking_call new_lat new_lng current_time
                               current_speed is_moving_segment) w in
              let w := update_driver_state new_lat new_lng current_time
                         current_speed (clk_status clk) (clk_duration clk) w in
              let w := call (save_last_location_call new_lat new_lng
                               current_time) w in
              (w, (true, has_moved))
          end
      end
  end.

(** A run of ingests, one per fetched location. *)
Fixpoint ingest_all
    (fetched : list (float * float * clock)) (w : tracker) : tracker :=
  match fetched with
  | [] => w
  | (new_lat, new_lng, clk) :: rest =>
      ingest_all rest (fst (process_fetched_location new_lat new_lng clk w))
  end.

End Engine.

(** ** Persistence: a fast cache (Redis) and a durable file store *)

(** A value as [json.loads] returns it and [json.dumps] accepts it.  A
    dictionary keeps its keys in insertion order, which is the order
    [.items()] iterates in. *)
Inductive json : Type :=
  | JNull
  | JBool (b : bool)
  | JInt (z : Z)
  | JFloat (f : float)
  | JStr (s : string)
  | JList (l : list json)
  | JDict (kvs : list (string * json)).

(** What a Redis key or a file holds: a text, known by what [json.loads]
    makes of it.  [json.dumps v] is the text [Dumped v]. *)
Inductive text : Type :=
  | Dumped (v : json)
  | Unparsable
  | Empty.

Definition json_loads (t : text) : result json :=
  match t with
  | Dumped v => Ok v
  | Unparsable | Empty => Raise JSONDecodeError
  end.

(** [redis_client] once configured: the server's keys, and whether the
    server answers (a command to an unreachable server raises). *)
Record redis : Type := Redis {
  redis_up : bool;
  redis_db : gmap string text
}.

(** The file store; [disk_ok = false] makes [os.makedirs] and [open]
    raise. *)
Record filesystem : Type := Filesystem {
  disk_ok : bool;
  files : gmap string text
}.

(** [redis_client] is [None] when no Redis URL is configured. *)
Record backends : Type := Backends {
  redis_client : option redis;
  disk : filesystem
}.

Definition redis_get (r : redis) (key : string) : result (option text) :=
  if redis_up r then Ok (redis_db r !! key) else Raise ConnectionError.

Definition redis_set (r : redis) (key : string) (t : text) : result redis :=
  if redis_up r
  then Ok {| redis_up := redis_up r; redis_db := <[key := t]> (redis_db r) |}
  else Raise ConnectionError.

(** [if data:] on the reply of [redis_client.get]. *)
Definition reply_truthy (reply : option text) : option text :=
  match reply with
  | Some Empty | None => None
  | Some t => Some t
  end.

Definition path_exists (fs : filesystem) (path : string) : bool :=
  bool_decide (is_Some (files fs !! path)).

(** [with open(path, 'r') as f: json.load(f)]. *)
Definition read_json (fs : filesystem) (path : string) : result json :=
  if disk_ok fs then
    match files fs !! path with
    | Some t => json_loads t
    | None => Raise OSError
    end
  else Raise OSError.

(** [os.makedirs(dir, exist_ok=True)] followed by
    [with open(path, 'w') as f: json.dump(v, f)]. *)
Definition write_json (fs : filesystem) (path : string) (v : json) : result filesystem :=
  if disk_ok fs
  then Ok {| disk_ok := disk_ok fs; files := <[path := Dumped v]> (files fs) |}
  else Raise OSError.

Definition with_redis (r : redis) (b : backends) : backends :=
  {| redis_client := Some r; disk := disk b |}.

Definition with_disk (fs : filesystem) (b : backends) : backends :=
  {| redis_client := redis_client b; disk := fs |}.

Definition HISTORY_FILE : string := "truck_data/location_history.json".
Definition DAILY_STATS_FILE : string := "truck_data/daily_stats.json".
Definition LAST_LOCATION_FILE : string := "truck_data/last_location.json".

Definition get_daily_file_path (date_str : string) : string :=
  "truck_data/daily/daily_" +:+ date_str +:+ ".json".

Definition daily_key (date_str : string) : string := "truck:daily:" +:+ date_str.

Definition is_list (v : json) : bool :=
  match v with JList _ => true | _ => false end.

Definition is_dict (v : json) : bool :=
  match v with JDict _ => true | _ => false end.

(** *** Loading *)

(** The Redis half of a loader: [Ok (Some v)] when the [try] block returns
    [v], [Ok None] when it ends without returning, [Raise] when it
    raises. *)
Definition redis_fetch (r : redis) (key : string) : result (option json) :=
  do reply <- redis_get r key;
  match reply_truthy reply with
  | Some t => do v <- json_loads t; Ok (Some v)
  | None => Ok None
  end.

Definition load_historical_data (b : backends) : result json :=
  let from_file :=
    match (if path_exists (disk b) HISTORY_FILE then
             do data <- read_json (disk b) HISTORY_FILE;
             Ok (Some (if is_list data then data else JList []))
           else Ok None) with
    | Ok (Some v) => Ok v
    | Ok None => Ok (JList [])
    | Raise _ => Ok (JList [])
    end in
  match redis_client b with
  | Some r =>
      match redis_fetch r "truck:location_history" with
      | Ok (Some data) => Ok (if is_list data then data else JList [])
      | Ok None => from_file
      | Raise _ => from_file
      end
  | None => from_file
  end.

Definition load_daily_stats (b : backends) : result json :=
  let from_file :=
    match (if path_exists (disk b) DAILY_STATS_FILE then
             do data <- read_json (disk b) DAILY_STATS_FILE;
             Ok (Some (if is_dict data then data else JDict []))
           else Ok None) with
    | Ok (Some v) => Ok v
    | Ok None => Ok (JDict [])
    | Raise _ => Ok (JDict [])
    end in
  match redis_client b with
  | Some r =>
      match redis_fetch r "truck:daily_stats" with
      | Ok (Some data) => Ok (if is_dict data then data else JDict [])
      | Ok None => from_file
      | Raise _ => from_file
      end
  | None => from_file
  end.

(** Returns the location, or [None], which is [JNull]. *)
Definition load_last_location (b : backends) : result json :=
  match redis_client b with
  | Some r =>
      match redis_fetch r "truck:last_location" with
      | Ok (Some data) => Ok data
      | Ok None => Ok JNull
      | Raise _ => Ok JNull
      end
  | None =>
      match (if path_exists (disk b) LAST_LOCATION_FILE then
               do data <- read_json (disk b) LAST_LOCATION_FILE;
               Ok (Some data)
             else Ok None) with
      | Ok (Some data) => Ok data
      | Ok None => Ok JNull
      | Raise _ => Ok JNull
      end
  end.

(** *** Saving *)

(** The file half of a saver: the whole of it is under [try]. *)
Definition save_to_file (path : string) (v : json) (b : backends) : result backends :=
  match write_json (disk b) path v with
  | Ok fs => Ok (with_disk fs b)
  | Raise _ => Ok b
  end.

Definition save_historical_data (history : json) (b : backends) : result backends :=
  match redis_client b with
  | Some r =>
      match redis_set r "truck:location_history" (Dumped history) with
      | Ok r' => Ok (with_redis r' b)
      | Raise _ => save_to_file HISTORY_FILE history b
      end
  | None => save_to_file HISTORY_FILE history b
  end.

Definition save_daily_stats (stats : json) (b : backends) : result backends :=
  match redis_client b with
  | Some r =>
      match redis_set r "truck:daily_stats" (Dumped stats) with
      | Ok r' => Ok (with_redis r' b)
      | Raise _ => save_to_file DAILY_STATS_FILE stats b
      end
  | None => save_to_file DAILY_STATS_FILE stats b
  end.

Definition save_last_location (lat lng ts : json) (b : backends) : result backends :=
  let record := JDict [("latitude", lat); ("longitude", lng); ("timestamp", ts)] in
  match redis_client b with
  | Some r =>
      match redis_set r "truck:last_location" (Dumped record) with
      | Ok r' => Ok (with_redis r' b)
      | Raise _ => save_to_file LAST_LOCATION_FILE record b
      end
  | None => save_to_file LAST_LOCATION_FILE record b
  end.

(** [save_daily_file] has no Redis branch. *)
Definition save_daily_file (date_str : string) (daily_data : json) (b : backends)
    : result backends :=
  save_to_file (get_daily_file_path date_str) daily_data b.

Definition create_empty_daily_file
    (date_str : string) (start_time start_lat start_lng : json) (b : backends)
    : result (backends * json) :=
  let daily_data :=
    JDict [("date", JStr date_str);
           ("start_time", start_time);
           ("end_time", JNull);
           ("start_location",
            JDict [("latitude", start_lat); ("longitude", start_lng);
                   ("timestamp", start_time)]);
           ("end_location", JNull);
           ("total_distance_miles", JFloat 0);
           ("total_travel_time_seconds", JInt 0);
           ("minute_locations", JList []);
           ("summary",
            JDict [("first_movement_time", JNull);
                   ("last_movement_time", JNull);
                   ("moving_time_seconds", JInt 0);
                   ("stopped_time_seconds", JInt 0)])] in
  let to_file :=
    do fs <- write_json (disk b) (get_daily_file_path date_str) daily_data;
    Ok (with_disk fs b, daily_data) in
  match redis_client b with
  | Some r =>
      match redis_set r (daily_key date_str) (Dumped daily_data) with
      | Ok r' => Ok (with_redis r' b, daily_data)
      | Raise _ => to_file
      end
  | None => to_file
  end.

(** *** Old-format daily records *)

Definition dict_get (kvs : list (string * json)) (key : string) : option json :=
  snd <$> find (fun kv => bool_decide (fst kv = key)) kvs.

(** [d.get(key, dflt)]; a value that is not a dictionary has no
    [get]. *)
Definition py_get (d : json) (key : string) (dflt : json) : result json :=
  match d with
  | JDict kvs => Ok (default dflt (dict_get kvs key))
  | _ => Raise AttributeError
  end.

(** [key in v], for a string [key]. *)
Definition py_contains (key : string) (v : json) : result bool :=
  match v with
  | JDict kvs => Ok (bool_decide (is_Some (dict_get kvs key)))
  | JList l =>
      Ok (existsb (fun x => match x with
                            | JStr s => bool_decide (s = key)
                            | _ => false
                            end) l)
  | JStr s => Ok (bool_decide (is_Some (String.index 0 key s)))
  | JNull | JBool _ | JInt _ | JFloat _ => Raise TypeError
  end.

(** The truth value of [v] in a condition. *)
Definition json_truthy (v : json) : bool :=
  match v with
  | JNull => false
  | JBool b => b
  | JInt z => negb (z =? 0)
  | JFloat f => float_truthy f
  | JStr s => negb (bool_decide (s = ""))
  | JList l => negb (bool_decide (l = []))
  | JDict kvs => negb (bool_decide (kvs = []))
  end.

(** [v > 1]. *)
Definition py_gt_one (v : json) : result bool :=
  match v with
  | JInt z => Ok (1 <? z)
  | JFloat f => Ok (1 <? f)%float
  | JBool _ => Ok false
  | JNull | JStr _ | JList _ | JDict _ => Raise TypeError
  end.

Section Migration.

(** [int(s)] on a key of ["samples_by_minute"]. *)
Variable int_of_str : string -> result Z.

(** [minutes_since_start_of_day start_time timestamp] is
    [int((datetime.fromtimestamp(timestamp) - start_of_day).total_seconds() / 60)]
    where [start_of_day] is
    [datetime.fromtimestamp(start_time).replace(hour=0, minute=0, second=0, microsecond=0)]. *)
Variable minutes_since_start_of_day : json -> Z -> result Z.

(** The loop over [old_data['samples_by_minute'].items()];
    [minute_locations] is the list built so far. *)
Fixpoint convert_samples
    (start_time : json) (items : list (string * json)) (minute_locations : list json)
    : result (list json) :=
  match items with
  | [] => Ok minute_locations
  | (timestamp_str, sample) :: rest =>
      do timestamp <- int_of_str timestamp_str;
      if json_truthy start_time then
        do minutes_since_start <- minutes_since_start_of_day start_time timestamp;
        do sample_lat <- py_get sample "latitude" JNull;
        do sample_lng <- py_get sample "longitude" JNull;
        do sample_speed <- py_get sample "speed" (JInt 0);
        do moving <- py_gt_one sample_speed;
        let minute_entry :=
          JDict [("minute", JInt minutes_since_start);
                 ("timestamp", JInt timestamp);
                 ("latitude", sample_lat);
                 ("longitude", sample_lng);
                 ("speed", sample_speed);
                 ("moving", JBool moving)] in
        convert_samples start_time rest (minute_locations ++ [minute_entry])
      else convert_samples start_time rest minute_locations
  end.

Definition migrate_old_daily_format (old_data : json) : result json :=
  do date <- py_get old_data "date" JNull;
  do start_time <- py_get old_data "start_time" JNull;
  do end_time <- py_get old_data "end_time" JNull;
  do start_location <- py_get old_data "start_location" JNull;
  do end_location <- py_get old_data "end_location" JNull;
  do total_miles <- py_get old_data "total_miles" (JInt 0);
  do total_travel_time <- py_get old_data "total_travel_time" (JInt 0);
  do has_samples <- py_contains "samples_by_minute" old_data;
  do minute_locations <-
    (if has_samples then
       do samples <- py_get old_data "samples_by_minute" JNull;
       match samples with
       | JDict items => convert_samples start_time items []
       | _ => Raise AttributeError
       end
     else Ok []);
  Ok (JDict [("date", date);
             ("start_time", start_time);
             ("end_time", end_time);
             ("start_location", start_location);
             ("end_location", end_location);
             ("total_distance_miles", total_miles);
             ("total_travel_time_seconds", total_travel_time);
             ("minute_locations", JList minute_locations);
             ("summary",
              JDict [("first_movement_time", JNull);
                     ("last_movement_time", JNull);
                     ("moving_time_seconds", JInt 0);
                     ("stopped_time_seconds", JInt 0)])]).

(** ['samples_by_minute' in data and 'minute_locations' not in data]. *)
Definition is_old_format (data : json) : result bool :=
  do has_samples <- py_contains "samples_by_minute" data;
  if has_samples then
    do has_minutes <- py_contains "minute_locations" data;
    Ok (negb has_minutes)
  else Ok false.

(** What [load_daily_file] does with a record it has read, in either
    branch: migrate it and write it back when it is in the old format. *)
Definition migrate_if_old (date_str : string) (data : json) (b : backends)
    : result (backends * json) :=
  do old <- is_old_format data;
  if old then
    do data' <- migrate_old_daily_format data;
    do b' <- save_daily_file date_str data' b;
    Ok (b', data')
  else Ok (b, data).

(** The file half of [load_daily_file]. *)
Definition load_daily_from_file (date_str : string) (b : backends)
    : result (backends * option json) :=
  let file_path := get_daily_file_path date_str in
  match (if path_exists (disk b) file_path then
           do data <- read_json (disk b) file_path;
           do loaded <- migrate_if_old date_str data b;
           Ok (Some loaded)
         else Ok None) with
  | Ok (Some (b', data)) => Ok (b', Some data)
  | Ok None => Ok (b, None)
  | Raise _ => Ok (b, None)
  end.

(** Returns the record or [None], and the backends as it leaves them. *)
Definition load_daily_file (date_str : string) (b : backends)
    : result (backends * option json) :=
  match redis_client b with
  | Some r =>
      match (do fetched <- redis_fetch r (daily_key date_str);
             match fetched with
             | Some data =>
                 do loaded <- migrate_if_old date_str data b;
                 Ok (Some loaded)
             | None => Ok None
             end) with
      | Ok (Some (b', data)) => Ok (b', Some data)
      | Ok None => load_daily_from_file date_str b
      | Raise _ => load_daily_from_file date_str b
      end
  | None => load_daily_from_file date_str b
  end.

End Migration.

(** ** Instances for running the engine on concrete inputs *)

(** A stand-in for the great-circle formula: one degree is one mile, along
    the axes. *)
Definition planar_distance (lat1 lon1 lat2 lon2 : float) : float :=
  (abs (lat2 - lat1) + abs (lon2 - lon1))%float.

(** A calendar in which every time stamp falls on the same day. *)
Definition single_day (_ : float) : string := "2025-09-15".

(** [int(s)] on a string of decimal digits, the form of the keys of
    ["samples_by_minute"]. *)
Fixpoint digits_value (s : string) (acc : Z) : option Z :=
  match s with
  | EmptyString => Some acc
  | String c s' =>
      let n := Z.of_N (Ascii.N_of_ascii c) - 48 in
      if (0 <=? n) && (n <=? 9) then digits_value s' (10 * acc + n) else None
  end.

Definition decimal_int_of_str (s : string) : result Z :=
  match s with
  | EmptyString => Raise ValueError
  | _ => match digits_value s 0 with
         | Some z => Ok z
         | None => Raise ValueError
         end
  end.

(** Minutes since midnight in UTC, for time stamps after the epoch. *)
Definition utc_minutes_since_start_of_day
    (start_time : json) (timestamp : Z) : result Z :=
  let since (s : Z) := Z.quot (timestamp - 86400 * (s / 86400)) 60 in
  match start_time with
  | JInt s => Ok (since s)
  | JBool b => Ok (since (if b then 1 else 0))
  | JFloat f => do s <- py_int f; Ok (since s)
  | _ => Raise TypeError
  end.

(** The state at start-up with nothing stored. *)
Definition fresh_tracker : tracker :=
  Tracker (Driver 32.32177734375 (-86.33056640625) 0 0 None None) [] ∅ [].

(** A clock that reads [t] at every call of one ingest. *)
Definition clock_at (t : float) : clock := Clock t t t t t t.

(** A cache that answers, holding today's record; nothing on disk. *)
Definition cache_up_state : backends :=
  {| redis_client :=
       Some {| redis_up := true;
               redis_db := {["truck:daily:2025-09-15" := Dumped (JDict [])]} |};
     disk := {| disk_ok := true; files := ∅ |} |}.

(** A daily record in the old format: two samples keyed by time stamp. *)
Definition old_daily_record : json :=
  JDict [("date", JStr "2025-09-14");
         ("start_time", JInt 1757808000);
         ("end_time", JInt 1757811600);
         ("start_location", JNull);
         ("end_location", JNull);
         ("total_miles", JFloat 12.5);
         ("total_travel_time", JInt 3600);
         ("samples_by_minute",
          JDict [("1757808060",
                  JDict [("latitude", JFloat 32.3); ("longitude", JFloat (-86.3));
                         ("speed", JFloat 42.5)]);
                 ("1757808120",
                  JDict [("latitude", JFloat 32.31); ("longitude", JFloat (-86.3));
                         ("speed", JInt 0)])])].

(** ** Predicates used in the statements *)

(** The history that [handle_segment_update_for_new_point] finds during
    the ingest of a fix: the fix appended, the history trimmed. *)
Definition history_at_segment_update
    (new_lat new_lng : float) (clk : clock) (w : tracker) : list point :=
  history (trim_history_hours 1 (clk_trim clk)
             (periodic_persist_history
                (append_history_point new_lat new_lng (clk_ingest clk) w))).


(** Every day that has a start location in [s] has the same start location
    and the same first movement time in [s']. *)
Definition start_kept (s s' : gmap string day_stats) : Prop :=
  forall day e loc,
    s !! day = Some e -> start_location e = Some loc ->
    exists e', s' !! day = Some e'
               /\ start_location e' = Some loc
               /\ first_movement_time e' = first_movement_time e.


(** ** More of the engine: mileage and the journey drawn on the map *)

(** Whether no fix of the list is earlier than the fix before it. *)
Fixpoint ascending_by_timestamp (l : list point) : bool :=
  match l with
  | p :: (q :: _) as rest =>
      (timestamp p <=? timestamp q)%float && ascending_by_timestamp rest
  | _ => true
  end.

(** [get_daily_mileage(target_date)]:
    [daily_stats.get(target_date, {}).get("total_miles", 0)]. *)
Definition get_daily_mileage (target_date : string) (w : tracker) : float :=
  default 0%float (total_miles <$> daily_stats w !! target_date).

(** The argument of the latest [save_daily_stats] call of a log. *)
Definition last_saved_daily_stats (log : list io_call)
    : option (gmap string day_stats) :=
  last (omap (fun c => match c with
                       | save_daily_stats_call stats => Some stats
                       | _ => None
                       end) log).

(** The dictionary [find_earliest_daily_start] returns. *)
Record daily_start : Type := DailyStart {
  ds_latitude : float;
  ds_longitude : float;
  ds_timestamp : float;
  ds_date : string;
  ds_start_time : float
}.

(** One iteration of the loop of [find_earliest_daily_start]. *)
Definition earliest_step (earliest_gps_time : float)
    (earliest : option daily_start) (item : string * day_stats)
    : option daily_start :=
  let '(date_str, entry) := item in
  match start_location entry with
  | Some (lat, lng) =>
      if float_truthy (start_time entry)
         && (start_time entry <? earliest_gps_time)%float
      then
        let found :=
          {| ds_latitude := lat; ds_longitude := lng;
             ds_timestamp := start_time entry; ds_date := date_str;
             ds_start_time := start_time entry |} in
        match earliest with
        | None => Some found
        | Some e =>
            if (start_time entry <? ds_start_time e)%float
            then Some found else earliest
        end
      else earliest
  | None => earliest
  end.

(** [stats] is the dictionary in the order [.items()] iterates in. *)
Definition find_earliest_daily_start
    (stats : list (string * day_stats)) (earliest_gps_time : float)
    : option daily_start :=
  fold_left (earliest_step earliest_gps_time) stats None.

(** A point of the journey drawn on the map. *)
Record journey_point : Type := JourneyPoint {
  jp_lat : float;
  jp_lng : float;
  jp_timestamp : float
}.

Definition journey_point_of (p : point) : journey_point :=
  {| jp_lat := latitude p; jp_lng := longitude p; jp_timestamp := timestamp p |}.

(** [for i in range(start, len(l), step)] for [step >= 1]: [skip] is the
    number of elements to pass over before the next one is taken. *)
Fixpoint every_nth (step skip : nat) (l : list point) : list journey_point :=
  match l with
  | [] => []
  | p :: l' =>
      match skip with
      | O => journey_point_of p :: every_nth step (step - 1) l'
      | S k => every_nth step k l'
      end
  end.

(** ** The distance as Python computes it

    [math.sin] and [math.cos] raise [ValueError] on an infinity, and
    [math.sqrt(1-a)] raises it when rounding takes [a] above 1, which
    happens for two points that lie nearly opposite each other on the
    globe.  The functions below are the ones that call
    [haversine_distance] outside any [try]; here the distance is partial,
    and they fail where it fails. *)

(** [d[key]] for a string [key]: a dictionary without the key raises
    [KeyError]; no other value can be indexed by a string. *)
Definition py_getitem (d : json) (key : string) : result json :=
  match d with
  | JDict kvs =>
      match dict_get kvs key with
      | Some v => Ok v
      | None => Raise KeyError
      end
  | _ => Raise TypeError
  end.

(** The float a JSON value is taken for when it is subtracted from a
    float: an integer is rounded to the nearest float and raises
    [OverflowError] when it is too large for one, [True] and [False] are
    1 and 0, and any other value raises [TypeError]. *)
Definition py_float (v : json) : result float :=
  match v with
  | JFloat f => Ok f
  | JInt z =>
      match Prim2SF (float_of_Z z) with
      | S754_infinity _ => Raise OverflowError
      | _ => Ok (float_of_Z z)
      end
  | JBool b => Ok (if b then 1%float else 0%float)
  | JNull | JStr _ | JList _ | JDict _ => Raise TypeError
  end.

Module Partial.

Section Distance.

(** The value of the great-circle formula, in miles; [None] where
    [math.sin], [math.cos] or [math.sqrt] raise. *)
Variable haversine_value : float -> float -> float -> float -> option float.

Definition haversine_distance (lat1 lon1 lat2 lon2 : float) : result float :=
  match haversine_value lat1 lon1 lat2 lon2 with
  | Some miles => Ok miles
  | None => Raise ValueError
  end.

Definition calculate_speed
    (history : list point) (minutes now : float) : result float :=
  if (length history <? 2)%nat then Ok 0%float
  else
    let recent_locations :=
      filter (fun loc => (now - timestamp loc <=? minutes * 60)%float = true)
             history in
    match recent_locations, last recent_locations with
    | oldest :: _ :: _, Some newest =>
        do distance_miles <-
          haversine_distance (latitude oldest) (longitude oldest)
                             (latitude newest) (longitude newest);
        let time_hours := ((timestamp newest - timestamp oldest) / 3600)%float in
        if (0 <? time_hours)%float then
          do calculated_speed <- py_div distance_miles time_hours;
          if is_realistic_speed calculated_speed
          then Ok calculated_speed else Ok 0%float
        else Ok 0%float
    | _, _ => Ok 0%float
    end.

Definition calculate_vehicle_icon_speed
    (history : list point) (now_1 now_5 : float) : result float :=
  do one_min_speed <- calculate_speed history 1 now_1;
  if (0 <? one_min_speed)%float then Ok one_min_speed
  else
    do five_min_speed <- calculate_speed history 5 now_5;
    if (0 <? five_min_speed)%float then Ok five_min_speed
    else Ok 0%float.

(** The distance to the first fix is computed before [range] is called;
    [range] raises on a step of 0 and is empty on a negative one, the
    start being 0 or [step] and the stop a length. *)
Definition sample_history_points
    (sorted_history : list point) (earliest_daily_start : option daily_start)
    (step : Z) : result (list journey_point) :=
  do start_index <-
    match earliest_daily_start, sorted_history with
    | Some e, first_gps :: _ =>
        do distance <-
          haversine_distance (ds_latitude e) (ds_longitude e)
                             (latitude first_gps) (longitude first_gps);
        Ok (if (distance <? 1.0)%float then step else 0)
    | _, _ => Ok 0
    end;
  if step =? 0 then Raise ValueError
  else if step <? 0 then Ok []
  else Ok (every_nth (Z.to_nat step) (Z.to_nat start_index) sorted_history).

(** [last_location] is what [load_last_location] returned, [JNull] for
    [None].  The two coordinates are looked up before the call of
    [haversine_distance], which subtracts them from the current ones
    before it applies the formula. *)
Definition calculate_startup_speed
    (last_location : json) (current_lat current_lng current_time : float)
    : result float :=
  if negb (json_truthy last_location) then Ok 0%float
  else
    do last_lat <- py_getitem last_location "latitude";
    do last_lng <- py_getitem last_location "longitude";
    do lat1 <- py_float last_lat;
    do lon1 <- py_float last_lng;
    do distance_miles <- haversine_distance lat1 lon1 current_lat current_lng;
    do last_timestamp <- py_getitem last_location "timestamp";
    do last_ts <- py_float last_timestamp;
    let time_diff_hours := ((current_time - last_ts) / 3600)%float in
    if (0 <? time_diff_hours)%float && (0.001 <? distance_miles)%float then
      do calculated_speed <- py_div distance_miles time_diff_hours;
      if is_realistic_speed calculated_speed && (time_diff_hours <=? 8)%float
      then Ok calculated_speed
      else Ok 0%float
    else Ok 0%float.

End Distance.

End Partial.

(** Between two states of the tracker: the daily statistics are those of
    the earlier state and [save_daily_stats] was not called in between, or
    the latest call of [save_daily_stats] was given the daily statistics
    of the later state. *)
Definition daily_stats_written_through (w w' : tracker) : Prop :=
  (daily_stats w' = daily_stats w
   /\ last_saved_daily_stats (io_log w') = last_saved_daily_stats (io_log w))
  \/ last_saved_daily_stats (io_log w') = Some (daily_stats w').

Section DayRecord.

Variable int_of_str : string -> result Z.
Variable minutes_since_start_of_day : json -> Z -> result Z.

(** [get_current_day_data()], for the date [today]; [current_time],
    [current_lat] and [current_lng] are the clock and the driver's
    position, read when a record has to be created.  A file that holds
    [null] is copied to the cache and then counts as no record. *)
Definition get_current_day_data
    (today : string) (current_time current_lat current_lng : json) (b : backends)
    : result (backends * json) :=
  do loaded <- load_daily_file int_of_str minutes_since_start_of_day today b;
  let '(b, daily_data) := loaded in
  let '(b, daily_data) :=
    match redis_client b, daily_data with
    | Some r, None =>
        let file_path := get_daily_file_path today in
        if path_exists (disk b) file_path then
          match (do file_data <- read_json (disk b) file_path;
                 do r' <- redis_set r (daily_key today) (Dumped file_data);
                 Ok (with_redis r' b, file_data)) with
          | Ok (b', JNull) => (b', None)
          | Ok (b', file_data) => (b', Some file_data)
          | Raise _ => (b, None)
          end
        else (b, None)
    | _, _ => (b, daily_data)
    end in
  match daily_data with
  | Some d => Ok (b, d)
  | None => create_empty_daily_file today current_time current_lat current_lng b
  end.

End DayRecord.

(** * Properties *)

(** ** Comparisons of floats *)

Lemma SFcompare_Lt_swap (a b : spec_float) :
  SFcompare a b = Some Lt -> SFcompare b a = Some Gt.
Proof.
  destruct a as [sa|sa| |sa ma ea], b as [sb|sb| |sb mb eb]; simpl;
    try destruct sa; try destruct sb; simpl; try congruence.
  all: rewrite (Z.compare_antisym ea eb);
    destruct (ea ?= eb)%Z; simpl; try congruence;
    rewrite !Pos.compare_cont_spec; simpl;
    rewrite (Pos.compare_antisym ma mb);
    destruct (ma ?= mb)%positive; simpl; congruence.
Qed.

(** [x < y] excludes [y <= x], NaN included. *)
Lemma ltb_leb_false (x y : float) :
  (x <? y)%float = true -> (y <=? x)%float = false.
Proof.
  rewrite ltb_spec, leb_spec. unfold SFltb, SFleb.
  destruct (SFcompare (Prim2SF x) (Prim2SF y)) as [[]|] eqn:H; try discriminate.
  intros _. by rewrite (SFcompare_Lt_swap _ _ H).
Qed.

Lemma is_realistic_speed_above_max (s : float) :
  (MAX_REALISTIC_SPEED <? s)%float = true -> is_realistic_speed s = false.
Proof.
  intros H. unfold is_realistic_speed.
  rewrite (ltb_leb_false _ _ H). apply andb_false_r.
Qed.

(** ** The movement classifier *)

Section ClassifierFacts.

Variable haversine_distance : float -> float -> float -> float -> float.

Lemma insert_by_timestamp_perm p l : insert_by_timestamp p l ≡ₚ p :: l.
Proof.
  induction l as [|q l IH]; simpl; [done|].
  destruct (timestamp p <? timestamp q)%float; [done|].
  rewrite IH. apply Permutation_swap.
Qed.

(** Sorting rearranges the positions and loses none. *)
Lemma sort_by_timestamp_perm l : sort_by_timestamp l ≡ₚ l.
Proof.
  unfold sort_by_timestamp.
  assert (H : forall acc,
             fold_left (fun acc p => insert_by_timestamp p acc) l acc ≡ₚ l ++ acc).
  { induction l as [|p l IH]; intros acc; simpl; [done|].
    rewrite IH, insert_by_timestamp_perm. by rewrite Permutation_middle. }
  rewrite H. by rewrite app_nil_r.
Qed.

Lemma length_sort_by_timestamp l : length (sort_by_timestamp l) = length l.
Proof. by rewrite sort_by_timestamp_perm. Qed.

(** Every position of a window has its time stamp in the window; a NaN
    time stamp is in none. *)
Lemma window_positions_in_range history end_time window_seconds p :
  p ∈ get_positions_in_window history end_time window_seconds ->
  p ∈ history
  /\ (end_time - window_seconds <=? timestamp p)%float = true
  /\ (timestamp p <=? end_time)%float = true.
Proof.
  unfold get_positions_in_window. rewrite sort_by_timestamp_perm.
  rewrite list_elem_of_filter. intros [Hin Hp].
  apply andb_true_iff in Hin. tauto.
Qed.

Lemma window_length_le_history history end_time window_seconds :
  (length (get_positions_in_window history end_time window_seconds)
   <= length history)%nat.
Proof.
  unfold get_positions_in_window. rewrite length_sort_by_timestamp.
  apply length_filter.
Qed.

Lemma compute_window_distance_few history end_time window_seconds :
  (length (get_positions_in_window history end_time window_seconds) < 2)%nat ->
  compute_window_distance haversine_distance history end_time window_seconds
  = 0%float.
Proof.
  intros H. unfold compute_window_distance.
  apply Nat.ltb_lt in H. by rewrite H.
Qed.


(** C4, as the code has it: with fewer than 2 fixes in the trailing
    5-minute window the status is "unknown" when the history holds at
    least 2 fixes; a history of fewer than 2 fixes is answered before the
    window is looked at, with "stopped" and the driver's
    [stopped_since]. *)
Theorem movement_status_few_fixes history driver current_time :
  (length (get_positions_in_window history current_time 300) < 2)%nat ->
  get_movement_status haversine_distance history driver current_time
  = if (length history <? 2)%nat then (Stopped, stopped_since driver)
    else (Unknown, None).
Proof.
  intros Hfew. unfold get_movement_status.
  destruct (length history <? 2)%nat; [done|].
  rewrite (compute_window_distance_few _ _ _ Hfew).
  change (0 <? 0.0001)%float with true. cbv zeta.
  apply Nat.ltb_lt in Hfew. by rewrite Hfew.
Qed.

(** C6: with at least 2 fixes in the trailing 5-minute window, a
    cumulative displacement of exactly 0.028 mi is "stopped" and one
    strictly above 0.028 mi is "moving". *)
Theorem movement_status_threshold history driver current_time :
  (2 <= length (get_positions_in_window history current_time 300))%nat ->
  let total_distance :=
    compute_window_distance haversine_distance history current_time 300 in
  (total_distance = 0.028%float ->
     fst (get_movement_status haversine_distance history driver current_time)
     = Stopped)
  /\ ((0.028 <? total_distance)%float = true ->
     fst (get_movement_status haversine_distance history driver current_time)
     = Moving).
Proof.
  intros Hwin total_distance.
  assert (Hhist : (length history <? 2)%nat = false).
  { apply Nat.ltb_ge. etrans; [exact Hwin|]. apply window_length_le_history. }
  assert (Hrecent :
            (length (get_positions_in_window history current_time 300)
             <? 2)%nat = false) by by apply Nat.ltb_ge.
  assert (Hstatus :
            fst (get_movement_status haversine_distance history driver current_time)
            = if (0.028 <? total_distance)%float
              then Moving else Stopped).
  { unfold get_movement_status. rewrite Hhist. cbv zeta. rewrite Hrecent.
    fold total_distance.
    destruct (total_distance <? 0.0001)%float;
      by destruct (0.028 <? total_distance)%float. }
  rewrite Hstatus. split.
  - intros ->. reflexivity.
  - by intros ->.
Qed.

End ClassifierFacts.

(** C4 as the specification words it fails on a history of one fix: no
    window can hold 2 fixes, and the status is "stopped". *)
Lemma movement_status_single_fix_is_stopped :
  let history := [Point 32.3 (-86.3) 1000] in
  let driver := Driver 32.3 (-86.3) 1000 0 None None in
  (length (get_positions_in_window history 1030 300) < 2)%nat
  /\ fst (get_movement_status planar_distance history driver 1030) = Stopped
  /\ fst (get_movement_status planar_distance history driver 1030) <> Unknown.
Proof. vm_compute. split; [lia|]. split; [reflexivity|discriminate]. Qed.

(** C4, as the code has it, on a history of two fixes that both lie more
    than five minutes back. *)
Lemma movement_status_few_fixes_witness :
  get_movement_status planar_distance
    [Point 32.3 (-86.3) 1000; Point 32.3 (-86.3) 1060]
    (Driver 32.3 (-86.3) 1060 0 None None) 2000
  = (Unknown, None).
Proof.
  apply (movement_status_few_fixes planar_distance
           [Point 32.3 (-86.3) 1000; Point 32.3 (-86.3) 1060]
           (Driver 32.3 (-86.3) 1060 0 None None) 2000).
  vm_compute. lia.
Defined.

(** C6 on two fixes a minute apart: 0.028 miles apart, then 0.0281. *)
Lemma movement_status_threshold_witness :
  fst (get_movement_status planar_distance
         [Point 0 0 1000; Point 0.028 0 1060]
         (Driver 0.028 0 1060 0 None None) 1070) = Stopped
  /\ fst (get_movement_status planar_distance
            [Point 0 0 1000; Point 0.0281 0 1060]
            (Driver 0.0281 0 1060 0 None None) 1070) = Moving.
Proof.
  split.
  - apply (movement_status_threshold planar_distance
             [Point 0 0 1000; Point 0.028 0 1060]
             (Driver 0.028 0 1060 0 None None) 1070);
      [vm_compute; lia | reflexivity].
  - apply (movement_status_threshold planar_distance
             [Point 0 0 1000; Point 0.0281 0 1060]
             (Driver 0.0281 0 1060 0 None None) 1070);
      [vm_compute; lia | reflexivity].
Defined.

(** ** The ingest pipeline *)

Section EngineFacts.

Variable date_of_timestamp : float -> string.
Variable haversine_distance : float -> float -> float -> float -> float.

(** *** What each step leaves alone *)

Lemma update_daily_stats_frame distance_miles current_time lat lng w :
  let w' := update_daily_stats date_of_timestamp distance_miles current_time lat lng w in
  driver w' = driver w /\ history w' = history w.
Proof. done. Qed.

Lemma set_daily_start_location_frame lat lng current_time w :
  let w' := set_daily_start_location date_of_timestamp lat lng current_time w in
  driver w' = driver w /\ history w' = history w.
Proof.
  unfold set_daily_start_location. cbv zeta.
  repeat case_match; done.
Qed.

Lemma update_travel_time_frame current_time is_moving w :
  let w' := update_travel_time date_of_timestamp current_time is_moving w in
  driver w' = driver w /\ history w' = history w.
Proof. unfold update_travel_time. cbv zeta. by case_match. Qed.

Lemma handle_segment_update_frame new_lat new_lng current_time w :
  let w' := fst (handle_segment_update_for_new_point
                   date_of_timestamp haversine_distance
                   new_lat new_lng current_time w) in
  driver w' = driver w /\ history w' = history w.
Proof.
  unfold handle_segment_update_for_new_point. cbv zeta.
  repeat case_match; simpl; try done.
  split.
  - etrans; [apply set_daily_start_location_frame|]. apply update_daily_stats_frame.
  - etrans; [apply set_daily_start_location_frame|]. apply update_daily_stats_frame.
Qed.

Lemma update_driver_state_daily_stats
    lat lng current_time current_speed now_status now_duration w :
  daily_stats (update_driver_state haversine_distance lat lng current_time
                 current_speed now_status now_duration w)
  = daily_stats w.
Proof.
  unfold update_driver_state. cbv zeta.
  repeat case_match; done.
Qed.

(** *** Unrealistic segments *)

Lemma moving_segment_step_unrealistic acc prev_loc curr_loc seg_speed :
  (0 <? timestamp curr_loc - timestamp prev_loc)%float = true ->
  segment_speed (distance_between haversine_distance prev_loc curr_loc)
                (timestamp curr_loc - timestamp prev_loc)%float = Ok seg_speed ->
  (MAX_REALISTIC_SPEED <? seg_speed)%float = true ->
  moving_segment_step haversine_distance acc prev_loc curr_loc = Ok acc.
Proof.
  intros Hdt Hspeed Hfast. unfold moving_segment_step. cbv zeta.
  rewrite Hdt, Hspeed. simpl.
  by rewrite (is_realistic_speed_above_max _ Hfast).
Qed.

Lemma moving_segments_loop_snoc acc front prev_loc curr_loc after :
  moving_segments_loop haversine_distance acc (front ++ prev_loc :: curr_loc :: after)
  = bind (moving_segments_loop haversine_distance acc (front ++ [prev_loc]))
      (fun acc1 =>
         bind (moving_segment_step haversine_distance acc1 prev_loc curr_loc)
           (fun acc2 =>
              moving_segments_loop haversine_distance acc2 (curr_loc :: after))).
Proof.
  revert acc. induction front as [|p front IH]; intros acc.
  - simpl. by destruct (moving_segment_step _ _ _ _).
  - destruct front as [|q front].
    + simpl. destruct (moving_segment_step _ acc p prev_loc) as [acc'|]; simpl; [|done].
      by destruct (moving_segment_step _ acc' prev_loc curr_loc).
    + change (moving_segments_loop haversine_distance acc
                ((p :: q :: front) ++ prev_loc :: curr_loc :: after))
        with (bind (moving_segment_step haversine_distance acc p q)
                (fun acc' => moving_segments_loop haversine_distance acc'
                               ((q :: front) ++ prev_loc :: curr_loc :: after))).
      change (moving_segments_loop haversine_distance acc
                ((p :: q :: front) ++ [prev_loc]))
        with (bind (moving_segment_step haversine_distance acc p q)
                (fun acc' => moving_segments_loop haversine_distance acc'
                               ((q :: front) ++ [prev_loc]))).
      destruct (moving_segment_step _ acc p q) as [acc'|]; simpl; [|done].
      apply IH.
Qed.

Lemma handle_segment_update_unrealistic prev_loc curr_loc seg_speed w :
  (0 <? timestamp curr_loc - timestamp prev_loc)%float = true ->
  segment_speed (distance_between haversine_distance prev_loc curr_loc)
                (timestamp curr_loc - timestamp prev_loc)%float = Ok seg_speed ->
  (MAX_REALISTIC_SPEED <? seg_speed)%float = true ->
  penultimate (history w) = Some prev_loc ->
  handle_segment_update_for_new_point date_of_timestamp haversine_distance
    (latitude curr_loc) (longitude curr_loc) (timestamp curr_loc) w
  = (w, Ok false).
Proof.
  intros Hdt Hspeed Hfast Hprev. unfold handle_segment_update_for_new_point.
  rewrite Hprev. cbv zeta.
  destruct (length (history w) <? 2)%nat; [done|].
  rewrite (ltb_leb_false _ _ Hdt).
  unfold distance_between in Hspeed. rewrite Hspeed.
  by rewrite (is_realistic_speed_above_max _ Hfast).
Qed.

(** [update_travel_time] rewrites the day's entry with the mileage it
    had. *)
Lemma update_travel_time_total_miles current_time is_moving w day :
  total_miles <$>
    (daily_stats (update_travel_time date_of_timestamp current_time is_moving w)
       !! day)
  = total_miles <$> (daily_stats w !! day).
Proof.
  unfold update_travel_time. cbv zeta.
  destruct (daily_stats w !! date_of_timestamp current_time) as [e|] eqn:He;
    [|done].
  simpl. destruct (decide (day = date_of_timestamp current_time)) as [->|Hne].
  - by rewrite lookup_insert_eq, He.
  - by rewrite lookup_insert_ne.
Qed.

(** With two fixes or more in its window, [calculate_average_moving_speed]
    is the loop over the window followed by the division of the totals. *)
Lemma calculate_average_moving_speed_window history minutes now :
  let recent_locations :=
    filter (fun loc => (now - timestamp loc <=? minutes * 60)%float = true)
           history in
  (2 <= length recent_locations)%nat ->
  calculate_average_moving_speed haversine_distance history minutes now
  = do totals <- moving_segments_loop haversine_distance (0%float, 0%float)
                   recent_locations;
    let '(total_distance, total_time) := totals in
    if (0 <? total_time)%float then
      do avg_speed <- segment_speed total_distance total_time;
      if is_realistic_speed avg_speed then Ok avg_speed else Ok 0%float
    else Ok 0%float.
Proof.
  intros recent_locations Hrecent. unfold calculate_average_moving_speed.
  pose proof (length_filter
                (fun loc => (now - timestamp loc <=? minutes * 60)%float = true)
                history) as Hle.
  fold recent_locations in Hle |- *.
  assert (Hh : (length history <? 2)%nat = false) by (apply Nat.ltb_ge; lia).
  assert (Hr : (length recent_locations <? 2)%nat = false) by (by apply Nat.ltb_ge).
  by rewrite Hh, Hr.
Qed.

(** C7: a segment [prev_loc -> curr_loc] whose implied speed exceeds
    [MAX_REALISTIC_SPEED] adds nothing to the distance and the time that
    [calculate_average_moving_speed] divides, wherever it lies in the
    window: the average is the quotient of the totals that stand at
    [prev_loc], carried on from [curr_loc], and it is 0 when the window
    holds the two fixes alone; [handle_segment_update_for_new_point]
    leaves the state as it is; and the ingest of [curr_loc] after
    [prev_loc] leaves the [total_miles] of every day as it was. *)
Theorem unrealistic_segment_rejected prev_loc curr_loc seg_speed :
  (0 <? timestamp curr_loc - timestamp prev_loc)%float = true ->
  segment_speed (distance_between haversine_distance prev_loc curr_loc)
                (timestamp curr_loc - timestamp prev_loc)%float = Ok seg_speed ->
  (MAX_REALISTIC_SPEED <? seg_speed)%float = true ->
  (forall acc front after acc1,
      moving_segments_loop haversine_distance acc (front ++ [prev_loc]) = Ok acc1 ->
      moving_segments_loop haversine_distance acc
        (front ++ prev_loc :: curr_loc :: after)
      = moving_segments_loop haversine_distance acc1 (curr_loc :: after))
  /\ (forall history minutes now front after acc1,
        filter (fun loc => (now - timestamp loc <=? minutes * 60)%float = true)
               history
        = front ++ prev_loc :: curr_loc :: after ->
        moving_segments_loop haversine_distance (0%float, 0%float)
          (front ++ [prev_loc]) = Ok acc1 ->
        calculate_average_moving_speed haversine_distance history minutes now
        = do totals <- moving_segments_loop haversine_distance acc1
                         (curr_loc :: after);
          let '(total_distance, total_time) := totals in
          if (0 <? total_time)%float then
            do avg_speed <- segment_speed total_distance total_time;
            if is_realistic_speed avg_speed then Ok avg_speed else Ok 0%float
          else Ok 0%float)
  /\ (forall history minutes now,
        filter (fun loc => (now - timestamp loc <=? minutes * 60)%float = true)
               history
        = [prev_loc; curr_loc] ->
        calculate_average_moving_speed haversine_distance history minutes now
        = Ok 0%float)
  /\ (forall w,
        penultimate (history w) = Some prev_loc ->
        handle_segment_update_for_new_point date_of_timestamp haversine_distance
          (latitude curr_loc) (longitude curr_loc) (timestamp curr_loc) w
        = (w, Ok false))
  /\ (forall w clk day,
        clk_ingest clk = timestamp curr_loc ->
        penultimate (history_at_segment_update
                       (latitude curr_loc) (longitude curr_loc) clk w)
        = Some prev_loc ->
        total_miles <$>
          (daily_stats (fst (process_fetched_location
                               date_of_timestamp haversine_distance
                               (latitude curr_loc) (longitude curr_loc) clk w))
             !! day)
        = total_miles <$> (daily_stats w !! day)).
Proof.
  intros Hdt Hspeed Hfast.
  assert (Hloop : forall acc front after acc1,
    moving_segments_loop haversine_distance acc (front ++ [prev_loc]) = Ok acc1 ->
    moving_segments_loop haversine_distance acc
      (front ++ prev_loc :: curr_loc :: after)
    = moving_segments_loop haversine_distance acc1 (curr_loc :: after)).
  { intros acc front after acc1 Hfront.
    rewrite moving_segments_loop_snoc, Hfront. simpl.
    by rewrite (moving_segment_step_unrealistic _ _ _ _ Hdt Hspeed Hfast). }
  split; [exact Hloop|]. split; [|split; [|split]].
  - intros history minutes now front after acc1 Hwindow Hfront.
    rewrite calculate_average_moving_speed_window;
      [|rewrite Hwindow, length_app; simpl; lia].
    by rewrite Hwindow, (Hloop _ _ _ _ Hfront).
  - intros history minutes now Hwindow.
    rewrite calculate_average_moving_speed_window;
      [|rewrite Hwindow; simpl; lia].
    rewrite Hwindow.
    change [prev_loc; curr_loc] with ([] ++ prev_loc :: curr_loc :: []).
    by rewrite (Hloop (0%float, 0%float) [] [] (0%float, 0%float) eq_refl).
  - intros w Hprev.
    by eapply handle_segment_update_unrealistic.
  - intros w clk day Hclk Hprev.
    unfold process_fetched_location, history_at_segment_update in *. cbv zeta.
    destruct (detect_last_position_movement _ _ _ _) as [hm dm].
    rewrite Hclk in *.
    set (w1 := trim_history_hours _ _ _) in *.
    assert (Hw1 : daily_stats w1 = daily_stats w).
    { unfold w1, trim_history_hours, periodic_persist_history. simpl.
      by case_match. }
    rewrite (handle_segment_update_unrealistic _ _ _ w1 Hdt Hspeed Hfast Hprev).
    destruct (calculate_vehicle_icon_speed _ _ _ _) as [current_speed|];
      [|by rewrite <- Hw1].
    destruct (compute_segment_moving_flag_for_new_point _ _ _ _ _) as [is_moving|];
      [|by rewrite <- Hw1].
    change (fst (?x, ?y)) with x. unfold call; cbn [daily_stats].
    rewrite update_driver_state_daily_stats. cbn [daily_stats].
    rewrite update_travel_time_total_miles.
    by rewrite Hw1.
Qed.

(** *** Driver state *)

Lemma update_driver_state_history
    lat lng current_time current_speed now_status now_duration w :
  history (update_driver_state haversine_distance lat lng current_time
             current_speed now_status now_duration w)
  = history w.
Proof.
  unfold update_driver_state. cbv zeta.
  repeat case_match; done.
Qed.







(** *** First fix *)

(** C10: with no last position recorded, movement detection answers
    [moved = True] with a distance of 0, and so does the ingest of the
    first fix after start-up when it succeeds. *)
Theorem first_fix_counts_as_movement new_lat new_lng clk w :
  last_position (driver w) = None ->
  detect_last_position_movement haversine_distance (driver w) new_lat new_lng
  = (true, 0%float)
  /\ forall w' has_moved,
       process_fetched_location date_of_timestamp haversine_distance
         new_lat new_lng clk w = (w', (true, has_moved)) ->
       has_moved = true.
Proof.
  intros Hlast.
  assert (Hdetect :
            detect_last_position_movement haversine_distance
              (driver w) new_lat new_lng = (true, 0%float)).
  { unfold detect_last_position_movement. by rewrite Hlast. }
  split; [done|].
  intros w' has_moved. unfold process_fetched_location. cbv zeta.
  rewrite Hdetect.
  repeat case_match; by intros [=].
Qed.

(** *** Legacy daily stats *)

Lemma start_kept_refl s : start_kept s s.
Proof. intros day e loc He Hloc. by exists e. Qed.

Lemma start_kept_trans s1 s2 s3 :
  start_kept s1 s2 -> start_kept s2 s3 -> start_kept s1 s3.
Proof.
  intros H12 H23 day e loc He Hloc.
  destruct (H12 day e loc He Hloc) as (e2 & He2 & Hloc2 & Hfirst2).
  destruct (H23 day e2 loc He2 Hloc2) as (e3 & He3 & Hloc3 & Hfirst3).
  exists e3. split; [done|]. split; [done|]. congruence.
Qed.

Lemma update_daily_stats_start_kept distance_miles current_time lat lng w :
  start_kept (daily_stats w)
    (daily_stats (update_daily_stats date_of_timestamp
                    distance_miles current_time lat lng w)).
Proof.
  intros day e loc He Hloc. unfold update_daily_stats. cbv zeta. simpl.
  set (today := date_of_timestamp current_time).
  destruct (decide (day = today)) as [->|Hne].
  - rewrite He. rewrite lookup_alter_eq, He. simpl. eauto.
  - rewrite lookup_alter_ne by done.
    destruct (daily_stats w !! today).
    + eauto.
    + rewrite lookup_insert_ne by done. eauto.
Qed.

Lemma set_daily_start_location_start_kept lat lng current_time w :
  start_kept (daily_stats w)
    (daily_stats (set_daily_start_location date_of_timestamp
                    lat lng current_time w)).
Proof.
  intros day e loc He Hloc. unfold set_daily_start_location. cbv zeta.
  set (today := date_of_timestamp current_time).
  destruct (decide (day = today)) as [->|Hne].
  - rewrite He, He, Hloc. simpl. eauto.
  - destruct (daily_stats w !! today) as [e0|] eqn:Htoday.
    + rewrite Htoday. destruct (start_location e0); simpl.
      * eauto.
      * rewrite lookup_insert_ne by done. eauto.
    + rewrite lookup_insert_eq. simpl.
      rewrite !lookup_insert_ne by done. eauto.
Qed.

Lemma update_travel_time_start_kept current_time is_moving w :
  start_kept (daily_stats w)
    (daily_stats (update_travel_time date_of_timestamp
                    current_time is_moving w)).
Proof.
  intros day e loc He Hloc. unfold update_travel_time. cbv zeta.
  set (today := date_of_timestamp current_time).
  destruct (decide (day = today)) as [->|Hne].
  - rewrite He. simpl. rewrite lookup_insert_eq. eauto.
  - destruct (daily_stats w !! today); simpl.
    + rewrite lookup_insert_ne by done. eauto.
    + eauto.
Qed.

Lemma handle_segment_update_start_kept new_lat new_lng current_time w :
  start_kept (daily_stats w)
    (daily_stats (fst (handle_segment_update_for_new_point
                         date_of_timestamp haversine_distance
                         new_lat new_lng current_time w))).
Proof.
  unfold handle_segment_update_for_new_point. cbv zeta.
  repeat case_match; simpl; try apply start_kept_refl.
  eapply start_kept_trans;
    [apply update_daily_stats_start_kept|apply set_daily_start_location_start_kept].
Qed.

Lemma ingest_start_kept new_lat new_lng clk w :
  start_kept (daily_stats w)
    (daily_stats (fst (process_fetched_location date_of_timestamp
                         haversine_distance new_lat new_lng clk w))).
Proof.
  unfold process_fetched_location. cbv zeta.
  destruct (detect_last_position_movement _ _ _ _) as [hm dm].
  set (w1 := trim_history_hours _ _ _).
  assert (Hw1 : daily_stats w1 = daily_stats w).
  { unfold w1, trim_history_hours, periodic_persist_history. simpl. by case_match. }
  rewrite <- Hw1.
  pose proof (handle_segment_update_start_kept new_lat new_lng (clk_ingest clk) w1)
    as Hseg.
  destruct (handle_segment_update_for_new_point _ _ _ _ _ w1) as [w2 outcome].
  simpl in Hseg.
  destruct outcome as [moved|]; [|done].
  destruct (calculate_vehicle_icon_speed _ _ _ _) as [current_speed|]; [|done].
  destruct (compute_segment_moving_flag_for_new_point _ _ _ _ _) as [is_moving|];
    [|done].
  eapply start_kept_trans; [exact Hseg|].
  change (fst (?a, ?b)) with a.
  unfold call; cbn [daily_stats].
  rewrite update_driver_state_daily_stats.
  apply update_travel_time_start_kept.
Qed.

(** C9: once a day's legacy stats hold a start location, no run of
    ingests changes it, nor the first movement time set with it. *)
Theorem start_location_sticky fetched w day e loc :
  daily_stats w !! day = Some e ->
  start_location e = Some loc ->
  exists e',
    daily_stats (ingest_all date_of_timestamp haversine_distance fetched w) !! day
    = Some e'
    /\ start_location e' = Some loc
    /\ first_movement_time e' = first_movement_time e.
Proof.
  revert w e. induction fetched as [|[[new_lat new_lng] clk] fetched IH];
    intros w e He Hloc.
  - by exists e.
  - destruct (ingest_start_kept new_lat new_lng clk w day e loc He Hloc)
      as (e1 & He1 & Hloc1 & Hfirst1).
    destruct (IH _ e1 He1 Hloc1) as (e' & He' & Hloc' & Hfirst').
    exists e'. split; [exact He'|]. split; [done|]. congruence.
Qed.

(** What one call of [update_travel_time] adds to the day's total: the
    time since the last fix flagged moving, whatever lay between. *)
Lemma update_travel_time_accrual current_time is_moving w e :
  daily_stats w !! date_of_timestamp current_time = Some e ->
  exists e',
    daily_stats (update_travel_time date_of_timestamp current_time is_moving w)
      !! date_of_timestamp current_time = Some e'
    /\ total_travel_time e'
       = match is_moving, last_movement_update e with
         | true, Some last => (total_travel_time e + (current_time - last))%float
         | _, _ => total_travel_time e
         end
    /\ last_movement_update e'
       = if is_moving then Some current_time else last_movement_update e.
Proof.
  intros He. unfold update_travel_time. cbv zeta. rewrite He. simpl.
  rewrite lookup_insert_eq. eauto.
Qed.

End EngineFacts.

(** ** The engine on concrete runs *)

(** C7 on a segment of 3.4 miles in one minute, 204 mph. *)
Lemma unrealistic_segment_rejected_witness :
  let prev_loc := Point 0 0 1000 in
  let curr_loc := Point 3.4 0 1060 in
  let e := {| total_miles := 1.5; start_time := 900;
              start_location := Some (0, 0)%float; end_location := None;
              first_movement_time := Some 950%float; last_movement_time := None;
              total_travel_time := 0; last_update_time := 950;
              last_movement_update := None |} in
  let w := Tracker (Driver 0 0 1000 0 None (Some (0, 0)%float))
                   [prev_loc; curr_loc] {["2025-09-15" := e]} [] in
  let w0 := Tracker (Driver 0 0 1000 0 None (Some (0, 0)%float))
                    [prev_loc] {["2025-09-15" := e]} [] in
  moving_segments_loop planar_distance (0, 0)%float
    ([Point 0 0 940] ++ prev_loc :: curr_loc :: [Point 3.41 0 1120])
  = moving_segments_loop planar_distance (0, 0)%float
      (curr_loc :: [Point 3.41 0 1120])
  /\ calculate_average_moving_speed planar_distance
       [Point 0 0 940; prev_loc; curr_loc; Point 3.41 0 1120] 30 1130
     = calculate_average_moving_speed planar_distance
         [curr_loc; Point 3.41 0 1120] 30 1130
  /\ calculate_average_moving_speed planar_distance
       [prev_loc; curr_loc] 30 1070 = Ok 0%float
  /\ handle_segment_update_for_new_point single_day planar_distance
       3.4 0 1060 w = (w, Ok false)
  /\ total_miles <$>
       (daily_stats (fst (process_fetched_location single_day planar_distance
                            3.4 0 (clock_at 1060) w0))
          !! "2025-09-15")
     = Some 1.5%float.
Proof.
  intros prev_loc curr_loc e w w0.
  assert (Hdt : (0 <? timestamp curr_loc - timestamp prev_loc)%float = true)
    by reflexivity.
  assert (Hspeed :
            segment_speed (distance_between planar_distance prev_loc curr_loc)
              (timestamp curr_loc - timestamp prev_loc)%float
            = Ok (3.4 / (60 / 3600))%float) by reflexivity.
  assert (Hfast : (MAX_REALISTIC_SPEED <? 3.4 / (60 / 3600))%float = true)
    by reflexivity.
  destruct (unrealistic_segment_rejected single_day planar_distance
              prev_loc curr_loc _ Hdt Hspeed Hfast)
    as (Hloop & Haverage & Halone & Hsegment & Hingest).
  split; [|split; [|split; [|split]]].
  - apply Hloop. reflexivity.
  - etrans; [apply (Haverage _ 30%float 1130%float [Point 0 0 940]
                      [Point 3.41 0 1120] (0, 0)%float); reflexivity|].
    reflexivity.
  - apply Halone. reflexivity.
  - apply (Hsegment w). reflexivity.
  - etrans; [apply (Hingest w0 (clock_at 1060) "2025-09-15"); reflexivity|].
    reflexivity.
Defined.

(** C1 fails on the code.  Four fixes a minute apart: the truck moves,
    stands still for a minute, then moves again.  The first moving fix
    sets the accrual base at 1060; the fix at 1120 is not moving and
    leaves the total and the base alone; the moving fix at 1180 adds
    [1180 - 1060] = 120 seconds, the minute of standstill included. *)
Theorem travel_time_credits_stopped_gap :
  let today := "2025-09-15" in
  let w2 := ingest_all single_day planar_distance
              [(0, 0, clock_at 1000); (0.02, 0, clock_at 1060)]%float
              fresh_tracker in
  let w3 := ingest_all single_day planar_distance
              [(0.02, 0, clock_at 1120)]%float w2 in
  let w4 := ingest_all single_day planar_distance
              [(0.04, 0, clock_at 1180)]%float w3 in
  (total_travel_time <$> daily_stats w2 !! today = Some 0%float
   /\ last_movement_update <$> daily_stats w2 !! today = Some (Some 1060%float))
  /\ (total_travel_time <$> daily_stats w3 !! today = Some 0%float
      /\ last_movement_update <$> daily_stats w3 !! today = Some (Some 1060%float))
  /\ total_travel_time <$> daily_stats w4 !! today = Some 120%float.
Proof. vm_compute. done. Qed.



(** C9 on a day whose start location is set, through two more fixes of
    which the second is a realistic moving segment. *)
Lemma start_location_sticky_witness :
  let e := {| total_miles := 1.5; start_time := 900;
              start_location := Some (0, 0)%float; end_location := None;
              first_movement_time := Some 950%float; last_movement_time := None;
              total_travel_time := 0; last_update_time := 950;
              last_movement_update := None |} in
  let w := Tracker (Driver 0 0 950 0 None None) [] {["2025-09-15" := e]} [] in
  exists e',
    daily_stats
      (ingest_all single_day planar_distance
         [(0.01, 0, clock_at 1000); (0.03, 0, clock_at 1060)]%float w)
      !! "2025-09-15" = Some e'
    /\ start_location e' = Some (0, 0)%float
    /\ first_movement_time e' = Some 950%float.
Proof.
  intros e w.
  apply (start_location_sticky single_day planar_distance
           [(0.01, 0, clock_at 1000); (0.03, 0, clock_at 1060)]%float
           w "2025-09-15" e (0, 0)%float);
    reflexivity.
Defined.

(** C10 on the state at start-up. *)
Lemma first_fix_counts_as_movement_witness :
  detect_last_position_movement planar_distance (driver fresh_tracker) 32.4 (-86.3)
  = (true, 0%float)
  /\ snd (process_fetched_location single_day planar_distance
            32.4 (-86.3) (clock_at 1000) fresh_tracker) = (true, true).
Proof.
  destruct (first_fix_counts_as_movement single_day planar_distance
              32.4 (-86.3) (clock_at 1000) fresh_tracker eq_refl)
    as [Hdetect Hingest].
  split; [exact Hdetect|].
  destruct (process_fetched_location single_day planar_distance
              32.4 (-86.3) (clock_at 1000) fresh_tracker)
    as [w' [ok has_moved]] eqn:Hrun.
  assert (Hok : ok = true).
  { change ok with (fst (snd (w', (ok, has_moved)))). rewrite <- Hrun.
    vm_compute. reflexivity. }
  subst ok. simpl. f_equal. by eapply Hingest.
Defined.

(** ** Persistence *)

(** *** Saving *)

Lemma save_to_file_never_raises path v b :
  exists b', save_to_file path v b = Ok b'
             /\ redis_client b' = redis_client b.
Proof.
  unfold save_to_file. destruct (write_json (disk b) path v); eauto.
Qed.

(** A saver with a Redis branch returns as soon as the cache took the
    value: the file store is as it was. *)
Lemma save_historical_data_cache_up history b r :
  redis_client b = Some r -> redis_up r = true ->
  exists b', save_historical_data history b = Ok b'
             /\ disk b' = disk b
             /\ (exists r', redis_client b' = Some r'
                   /\ redis_db r' !! "truck:location_history" = Some (Dumped history)).
Proof.
  intros Hr Hup. unfold save_historical_data, redis_set. rewrite Hr, Hup.
  eexists. split; [done|]. split; [done|].
  eexists. split; [done|]. simpl. apply lookup_insert_eq.
Qed.

Lemma save_daily_stats_cache_up stats b r :
  redis_client b = Some r -> redis_up r = true ->
  exists b', save_daily_stats stats b = Ok b'
             /\ disk b' = disk b
             /\ (exists r', redis_client b' = Some r'
                   /\ redis_db r' !! "truck:daily_stats" = Some (Dumped stats)).
Proof.
  intros Hr Hup. unfold save_daily_stats, redis_set. rewrite Hr, Hup.
  eexists. split; [done|]. split; [done|].
  eexists. split; [done|]. simpl. apply lookup_insert_eq.
Qed.

Lemma save_last_location_cache_up lat lng ts b r :
  redis_client b = Some r -> redis_up r = true ->
  exists b', save_last_location lat lng ts b = Ok b' /\ disk b' = disk b.
Proof.
  intros Hr Hup. unfold save_last_location, redis_set. rewrite Hr, Hup.
  eexists. split; done.
Qed.

Lemma create_empty_daily_file_cache_up date_str start_time lat lng b r :
  redis_client b = Some r -> redis_up r = true ->
  exists b' daily_data,
    create_empty_daily_file date_str start_time lat lng b = Ok (b', daily_data)
    /\ disk b' = disk b
    /\ (exists r', redis_client b' = Some r'
          /\ redis_db r' !! daily_key date_str = Some (Dumped daily_data)).
Proof.
  intros Hr Hup. unfold create_empty_daily_file, redis_set. rewrite Hr, Hup.
  eexists _, _. split; [done|]. split; [done|].
  eexists. split; [done|]. simpl. apply lookup_insert_eq.
Qed.

(** [save_daily_file] writes the file whatever the cache does, and never
    the cache. *)
Lemma save_daily_file_writes_file date_str daily_data b :
  disk_ok (disk b) = true ->
  exists b',
    save_daily_file date_str daily_data b = Ok b'
    /\ redis_client b' = redis_client b
    /\ disk_ok (disk b') = true
    /\ files (disk b') = <[get_daily_file_path date_str := Dumped daily_data]>
                           (files (disk b)).
Proof.
  intros Hok. unfold save_daily_file, save_to_file, write_json. rewrite Hok.
  eexists. repeat split; done.
Qed.

Lemma save_daily_file_disk_down date_str daily_data b :
  disk_ok (disk b) = false -> save_daily_file date_str daily_data b = Ok b.
Proof.
  intros Hok. unfold save_daily_file, save_to_file, write_json. by rewrite Hok.
Qed.

(** C2 fails on the code for the key [daily:{date}]: with the cache up,
    [save_daily_file] writes the file store and leaves the cache as it
    was, so that the next [load_daily_file] still returns the record the
    cache holds; [save_historical_data] on the same state leaves the file
    store untouched. *)
Theorem save_daily_file_bypasses_cache :
  let daily_data :=
    JDict [("date", JStr "2025-09-15"); ("minute_locations", JList [])] in
  (exists b',
      save_daily_file "2025-09-15" daily_data cache_up_state = Ok b'
      /\ redis_client b' = redis_client cache_up_state
      /\ files (disk b') !! "truck_data/daily/daily_2025-09-15.json"
         = Some (Dumped daily_data)
      /\ disk b' <> disk cache_up_state
      /\ load_daily_file decimal_int_of_str utc_minutes_since_start_of_day
           "2025-09-15" b' = Ok (b', Some (JDict [])))
  /\ (exists b',
        save_historical_data (JList []) cache_up_state = Ok b'
        /\ disk b' = disk cache_up_state).
Proof.
  intros daily_data. split.
  - eexists. split; [reflexivity|]. split; [reflexivity|]. split; [|split].
    + vm_compute. reflexivity.
    + intros H.
      apply (f_equal (fun fs => files fs !! "truck_data/daily/daily_2025-09-15.json"))
        in H.
      vm_compute in H. discriminate.
    + vm_compute. reflexivity.
  - eexists. split; reflexivity.
Qed.

Lemma save_historical_data_disk_written history b b' :
  save_historical_data history b = Ok b' ->
  disk b' <> disk b ->
  redis_client b = None
  \/ exists r, redis_client b = Some r /\ redis_up r = false.
Proof.
  unfold save_historical_data, redis_set.
  destruct (redis_client b) as [r|]; [|by left].
  destruct (redis_up r) eqn:Hup; [|right; eauto].
  intros [= <-] Hdisk. by destruct Hdisk.
Qed.

(** *** Loading *)

(** No loader raises. *)
Lemma load_historical_data_never_raises b :
  exists v, load_historical_data b = Ok v.
Proof. unfold load_historical_data. repeat case_match; eauto. Qed.

Lemma load_daily_stats_never_raises b :
  exists v, load_daily_stats b = Ok v.
Proof. unfold load_daily_stats. repeat case_match; eauto. Qed.

Lemma load_last_location_never_raises b :
  exists v, load_last_location b = Ok v.
Proof. unfold load_last_location. repeat case_match; eauto. Qed.

(** The loaders of the history and of the daily stats answer from the file
    store when the cache has no value for the key or does not answer. *)
Lemma load_historical_data_falls_back b r :
  redis_client b = Some r ->
  redis_fetch r "truck:location_history" = Ok None
  \/ (exists e, redis_fetch r "truck:location_history" = Raise e) ->
  load_historical_data b
  = load_historical_data {| redis_client := None; disk := disk b |}.
Proof.
  intros Hr Hmiss. unfold load_historical_data. rewrite Hr. simpl.
  by destruct Hmiss as [-> | [e ->]].
Qed.

Lemma load_daily_stats_falls_back b r :
  redis_client b = Some r ->
  redis_fetch r "truck:daily_stats" = Ok None
  \/ (exists e, redis_fetch r "truck:daily_stats" = Raise e) ->
  load_daily_stats b
  = load_daily_stats {| redis_client := None; disk := disk b |}.
Proof.
  intros Hr Hmiss. unfold load_daily_stats. rewrite Hr. simpl.
  by destruct Hmiss as [-> | [e ->]].
Qed.

(** [load_last_location] reads the file only when Redis is not
    configured. *)
Lemma load_last_location_cache_miss b r :
  redis_client b = Some r ->
  redis_fetch r "truck:last_location" = Ok None
  \/ (exists e, redis_fetch r "truck:last_location" = Raise e) ->
  load_last_location b = Ok JNull.
Proof.
  intros Hr Hmiss. unfold load_last_location. rewrite Hr.
  by destruct Hmiss as [-> | [e ->]].
Qed.

(** C3 fails on the code for the key [last_location]: the cache answers
    and has no value for the key, the file store has one, and the loader
    returns [None], that is [JNull]; without Redis the same file store yields the value, and
    on the same state the history loader does fall back to its file. *)
Theorem load_last_location_skips_file_on_cache_miss :
  let location :=
    JDict [("latitude", JFloat 32.3); ("longitude", JFloat (-86.3));
           ("timestamp", JFloat 1000)] in
  let history := JList [location] in
  let fs := {| disk_ok := true;
               files := {[LAST_LOCATION_FILE := Dumped location;
                          HISTORY_FILE := Dumped history]} |} in
  let b := {| redis_client := Some {| redis_up := true; redis_db := ∅ |};
              disk := fs |} in
  load_last_location b = Ok JNull
  /\ load_last_location {| redis_client := None; disk := fs |} = Ok location
  /\ load_historical_data b = Ok history.
Proof. vm_compute. done. Qed.

(** *** Migration of old-format daily records *)

Section MigrationFacts.

Variable int_of_str : string -> result Z.
Variable minutes_since_start_of_day : json -> Z -> result Z.

(** What the migration returns has ["minute_locations"] and no
    ["samples_by_minute"]: it is not in the old format. *)
Lemma migrate_output_new_format old_data new_data :
  migrate_old_daily_format int_of_str minutes_since_start_of_day old_data
  = Ok new_data ->
  is_old_format new_data = Ok false.
Proof.
  unfold migrate_old_daily_format.
  destruct old_data; try discriminate. simpl.
  match goal with
  | |- context [bind ?r _] => destruct r as [minute_locations|]
  end; simpl; [|discriminate].
  intros [= <-]. reflexivity.
Qed.

(** A record that went through [migrate_if_old] comes back unchanged from
    a second pass, which writes nothing. *)
Lemma migrate_if_old_second_pass date_str data b b1 data1 :
  migrate_if_old int_of_str minutes_since_start_of_day date_str data b
  = Ok (b1, data1) ->
  forall b2,
    migrate_if_old int_of_str minutes_since_start_of_day date_str data1 b2
    = Ok (b2, data1).
Proof.
  unfold migrate_if_old at 1.
  destruct (is_old_format data) as [[|]|] eqn:Hold; simpl; [| |discriminate].
  - destruct (migrate_old_daily_format _ _ data) as [data'|] eqn:Hmig;
      simpl; [|discriminate].
    destruct (save_daily_file date_str data' b) as [b'|]; simpl; [|discriminate].
    intros [= <- <-] b2. unfold migrate_if_old.
    by rewrite (migrate_output_new_format _ _ Hmig).
  - intros [= <- <-] b2. unfold migrate_if_old. by rewrite Hold.
Qed.

(** *** Loading a daily record twice *)

Lemma save_daily_file_outcome date_str daily_data b b' :
  save_daily_file date_str daily_data b = Ok b' ->
  redis_client b' = redis_client b
  /\ save_daily_file date_str daily_data b' = Ok b'
  /\ (disk_ok (disk b) = true ->
      disk_ok (disk b') = true
      /\ files (disk b') !! get_daily_file_path date_str = Some (Dumped daily_data)).
Proof.
  unfold save_daily_file, save_to_file, write_json.
  destruct b as [rc [ok fs]]. simpl. destruct ok; simpl; intros [= <-]; simpl.
  - split; [done|]. split; [|split; [done|apply lookup_insert_eq]].
    unfold with_disk. simpl. by rewrite insert_insert_eq.
  - split; [done|]. split; [done|]. discriminate.
Qed.

(** The three ways [migrate_if_old] ends: the record is not in the old
    format and nothing happens; it is migrated and written; or the test
    or the migration raises, whatever the backends. *)
Lemma migrate_if_old_outcome date_str data b :
  match migrate_if_old int_of_str minutes_since_start_of_day date_str data b with
  | Ok (b', data') =>
      (is_old_format data = Ok false /\ b' = b /\ data' = data)
      \/ (is_old_format data = Ok true
          /\ migrate_old_daily_format int_of_str minutes_since_start_of_day data
             = Ok data'
          /\ save_daily_file date_str data' b = Ok b')
  | Raise e =>
      forall b2,
        migrate_if_old int_of_str minutes_since_start_of_day date_str data b2
        = Raise e
  end.
Proof.
  unfold migrate_if_old.
  destruct (is_old_format data) as [[|]|]; simpl; [| by left | done].
  destruct (migrate_old_daily_format _ _ data) as [data'|]; simpl; [|done].
  destruct (save_to_file_never_raises (get_daily_file_path date_str) data' b)
    as (b' & Hsave & _).
  unfold save_daily_file. rewrite Hsave. simpl. by right.
Qed.

Lemma load_daily_from_file_idempotent date_str b b1 r1 :
  load_daily_from_file int_of_str minutes_since_start_of_day date_str b
  = Ok (b1, r1) ->
  redis_client b1 = redis_client b
  /\ load_daily_from_file int_of_str minutes_since_start_of_day date_str b1
     = Ok (b1, r1).
Proof.
  unfold load_daily_from_file at 1. cbv zeta.
  destruct (path_exists (disk b) (get_daily_file_path date_str)) eqn:Hex;
    [|intros [= <- <-]; split; [done|];
      unfold load_daily_from_file; cbv zeta; by rewrite Hex].
  destruct (read_json (disk b) (get_daily_file_path date_str)) as [data|] eqn:Hread;
    simpl;
    [|intros [= <- <-]; split; [done|];
      unfold load_daily_from_file; cbv zeta; by rewrite Hex, Hread].
  pose proof (migrate_if_old_outcome date_str data b) as Hout.
  destruct (migrate_if_old _ _ date_str data b) as [[b' data']|e] eqn:Hmig; simpl.
  - intros [= <- <-].
    destruct Hout as [(Hold & -> & ->) | (Hold & Hmigrate & Hsave)].
    + split; [done|]. unfold load_daily_from_file. cbv zeta.
      by rewrite Hex, Hread; simpl; rewrite Hmig.
    + assert (Hok : disk_ok (disk b) = true).
      { unfold read_json in Hread. by destruct (disk_ok (disk b)). }
      destruct (save_daily_file_outcome _ _ _ _ Hsave) as (Hrc & _ & Hfile).
      destruct (Hfile Hok) as [Hok' Hlookup].
      split; [done|]. unfold load_daily_from_file. cbv zeta.
      assert (Hex' : path_exists (disk b') (get_daily_file_path date_str) = true).
      { unfold path_exists. apply bool_decide_eq_true. by rewrite Hlookup. }
      assert (Hread' : read_json (disk b') (get_daily_file_path date_str) = Ok data').
      { unfold read_json. by rewrite Hok', Hlookup. }
      rewrite Hex', Hread'. simpl.
      by rewrite (migrate_if_old_second_pass _ _ _ _ _ Hmig b').
  - intros [= <- <-]. split; [done|].
    unfold load_daily_from_file. cbv zeta.
    by rewrite Hex, Hread; simpl; rewrite Hmig.
Qed.

Lemma load_daily_file_never_raises date_str b :
  exists b' r,
    load_daily_file int_of_str minutes_since_start_of_day date_str b = Ok (b', r).
Proof.
  unfold load_daily_file, load_daily_from_file. repeat case_match; eauto.
Qed.

(** Loading a daily record a second time returns what the first load
    returned and leaves the backends as the first load left them,
    whether or not the first load migrated the record. *)
Lemma load_daily_file_idempotent date_str b b1 r1 :
  load_daily_file int_of_str minutes_since_start_of_day date_str b = Ok (b1, r1) ->
  load_daily_file int_of_str minutes_since_start_of_day date_str b1 = Ok (b1, r1).
Proof.
  unfold load_daily_file at 1.
  destruct (redis_client b) as [r|] eqn:Hrc.
  - destruct (redis_fetch r (daily_key date_str)) as [[data|]|e] eqn:Hfetch; simpl.
    + pose proof (migrate_if_old_outcome date_str data b) as Hout.
      destruct (migrate_if_old _ _ date_str data b) as [[b' data']|e] eqn:Hmig; simpl.
      * intros [= <- <-].
        destruct Hout as [(Hold & -> & ->) | (Hold & Hmigrate & Hsave)].
        -- unfold load_daily_file. by rewrite Hrc, Hfetch; simpl; rewrite Hmig.
        -- destruct (save_daily_file_outcome _ _ _ _ Hsave) as (Hrc' & Hagain & _).
           unfold load_daily_file. rewrite Hrc', Hrc, Hfetch. simpl.
           unfold migrate_if_old. rewrite Hold. simpl. rewrite Hmigrate. simpl.
           by rewrite Hagain.
      * intros Hfile.
        destruct (load_daily_from_file_idempotent _ _ _ _ Hfile) as [Hrc' Hagain].
        unfold load_daily_file. rewrite Hrc', Hrc, Hfetch. simpl.
        by rewrite Hout.
    + intros Hfile.
      destruct (load_daily_from_file_idempotent _ _ _ _ Hfile) as [Hrc' Hagain].
      unfold load_daily_file. by rewrite Hrc', Hrc, Hfetch.
    + intros Hfile.
      destruct (load_daily_from_file_idempotent _ _ _ _ Hfile) as [Hrc' Hagain].
      unfold load_daily_file. by rewrite Hrc', Hrc, Hfetch.
  - intros Hfile.
    destruct (load_daily_from_file_idempotent _ _ _ _ Hfile) as [Hrc' Hagain].
    unfold load_daily_file. by rewrite Hrc', Hrc.
Qed.

(** C5, as the code has it: the migration as [load_daily_file] applies
    it, under its test for the old format, is idempotent.  Applied to a
    record it has already been applied to, it returns that record
    unchanged and leaves the backends as they are; and loading a daily
    record a second time returns the record, and leaves the backends, of
    the first load. *)
Theorem guarded_migration_idempotent date_str data b b1 data1 :
  migrate_if_old int_of_str minutes_since_start_of_day date_str data b
  = Ok (b1, data1) ->
  (forall b2,
      migrate_if_old int_of_str minutes_since_start_of_day date_str data1 b2
      = Ok (b2, data1))
  /\ (forall b0 b' r,
        load_daily_file int_of_str minutes_since_start_of_day date_str b0
        = Ok (b', r) ->
        load_daily_file int_of_str minutes_since_start_of_day date_str b'
        = Ok (b', r)).
Proof.
  intros Hfirst. split.
  - by eapply migrate_if_old_second_pass.
  - apply load_daily_file_idempotent.
Qed.

End MigrationFacts.

(** C5 as the specification words it fails on the migration function
    itself: applied to its own output it finds neither ["total_miles"] nor
    ["samples_by_minute"], and returns a record with a distance of 0 and
    no minute locations. *)
Lemma migration_twice_differs :
  let migrate :=
    migrate_old_daily_format decimal_int_of_str utc_minutes_since_start_of_day in
  let once := migrate old_daily_record in
  let twice := bind once migrate in
  bind once (fun d => py_get d "total_distance_miles" JNull) = Ok (JFloat 12.5)
  /\ bind once (fun d => bind (py_get d "minute_locations" JNull)
                           (fun l => Ok (json_truthy l))) = Ok true
  /\ bind twice (fun d => py_get d "total_distance_miles" JNull) = Ok (JInt 0)
  /\ bind twice (fun d => py_get d "minute_locations" JNull) = Ok (JList [])
  /\ twice <> once.
Proof.
  vm_compute. repeat split; try reflexivity. discriminate.
Qed.

(** C5, as the code has it, on the old-format record above: the first
    pass migrates it, the second returns the migrated record. *)
Lemma guarded_migration_idempotent_witness :
  let b := {| redis_client := None;
              disk := {| disk_ok := true; files := ∅ |} |} in
  exists b1 data1,
    migrate_if_old decimal_int_of_str utc_minutes_since_start_of_day
      "2025-09-14" old_daily_record b = Ok (b1, data1)
    /\ data1 <> old_daily_record
    /\ migrate_if_old decimal_int_of_str utc_minutes_since_start_of_day
         "2025-09-14" data1 b1 = Ok (b1, data1).
Proof.
  intros b.
  destruct (migrate_if_old decimal_int_of_str utc_minutes_since_start_of_day
              "2025-09-14" old_daily_record b) as [[b1 data1]|] eqn:Hrun;
    [|vm_compute in Hrun; discriminate].
  exists b1, data1. split; [reflexivity|]. split.
  - intros ->. vm_compute in Hrun. discriminate.
  - exact (proj1 (guarded_migration_idempotent decimal_int_of_str
                    utc_minutes_since_start_of_day
                    "2025-09-14" old_daily_record b b1 data1 Hrun) b1).
Defined.


(** * Further properties *)

(** ** More on the order of floats *)

Lemma SFcompare_swap (a b : spec_float) (c : comparison) :
  SFcompare a b = Some c -> SFcompare b a = Some (CompOpp c).
Proof.
  destruct a as [sa|sa| |sa ma ea], b as [sb|sb| |sb mb eb]; simpl;
    try destruct sa; try destruct sb; simpl;
    try discriminate; try (intros [= <-]; reflexivity).
  all: rewrite (Z.compare_antisym ea eb);
    destruct (ea ?= eb)%Z; simpl; try (intros [= <-]; reflexivity);
    rewrite !Pos.compare_cont_spec; simpl;
    rewrite (Pos.compare_antisym ma mb);
    destruct (ma ?= mb)%positive; simpl; intros [= <-]; reflexivity.
Qed.

Lemma ltb_leb (x y : float) :
  (x <? y)%float = true -> (x <=? y)%float = true.
Proof.
  rewrite ltb_spec, leb_spec. unfold SFltb, SFleb.
  by destruct (SFcompare (Prim2SF x) (Prim2SF y)) as [[]|].
Qed.

Lemma ltb_asym (x y : float) :
  (x <? y)%float = true -> (y <? x)%float = false.
Proof.
  rewrite !ltb_spec. unfold SFltb.
  destruct (SFcompare (Prim2SF x) (Prim2SF y)) as [[]|] eqn:H; try discriminate.
  intros _. by rewrite (SFcompare_swap _ _ _ H).
Qed.

(** A float above another is not equal to it: a divisor that passed a
    test [> 0] is not zero. *)
Lemma ltb_eqb_false (x y : float) :
  (x <? y)%float = true -> (y =? x)%float = false.
Proof.
  rewrite ltb_spec, FloatAxioms.eqb_spec. unfold SFltb, SFeqb.
  destruct (SFcompare (Prim2SF x) (Prim2SF y)) as [[]|] eqn:H; try discriminate.
  intros _. by rewrite (SFcompare_swap _ _ _ H).
Qed.

(** Two floats that each compare to something are comparable: if the
    second is not below the first, the first is at most the second. *)
Lemma leb_total (x y a b : float) :
  (x <=? a)%float = true -> (y <=? b)%float = true ->
  (y <? x)%float = false -> (x <=? y)%float = true.
Proof.
  rewrite !leb_spec, ltb_spec. unfold SFleb, SFltb.
  intros Hx Hy Hlt.
  destruct (SFcompare (Prim2SF y) (Prim2SF x)) as [c|] eqn:Hc.
  - rewrite (SFcompare_swap _ _ _ Hc). by destruct c.
  - exfalso.
    destruct (Prim2SF x) as [sx|sx| |sx mx ex], (Prim2SF y) as [sy|sy| |sy my ey],
      (Prim2SF a) as [sa|sa| |sa ma ea], (Prim2SF b) as [sb|sb| |sb mb eb];
      simpl in *; try discriminate;
      try destruct sx; try destruct sy; discriminate.
Qed.

Lemma ltb_trans (x y z : float) :
  (x <? y)%float = true -> (y <? z)%float = true -> (x <? z)%float = true.
Proof.
  rewrite !ltb_spec. unfold SFltb.
  destruct (Prim2SF x) as [sx|sx| |sx mx ex], (Prim2SF y) as [sy|sy| |sy my ey],
    (Prim2SF z) as [sz|sz| |sz mz ez]; simpl;
    try destruct sx; try destruct sy; try destruct sz; simpl; try discriminate;
    try reflexivity.
  all: rewrite ?Pos.compare_cont_spec; simpl;
    destruct (Z.compare_spec ex ey), (Z.compare_spec ey ez), (Z.compare_spec ex ez);
    simpl; try discriminate; try reflexivity; try lia;
    destruct (Pos.compare_spec mx my), (Pos.compare_spec my mz),
      (Pos.compare_spec mx mz);
    simpl; try discriminate; try reflexivity; try lia.
Qed.

Lemma ltb_irrefl (x : float) : (x <? x)%float = false.
Proof.
  destruct (x <? x)%float eqn:H; [|done]. by rewrite (ltb_asym _ _ H) in H.
Qed.


(** ** The movement classifier, further *)

Section ClassifierMore.

Variable haversine_distance : float -> float -> float -> float -> float.

Lemma insert_by_timestamp_ascending bound p l :
  (timestamp p <=? bound)%float = true ->
  Forall (fun q => (timestamp q <=? bound)%float = true) l ->
  ascending_by_timestamp l = true ->
  ascending_by_timestamp (insert_by_timestamp p l) = true.
Proof.
  intros Hp. induction l as [|q l IH]; intros Hall Hasc; [done|].
  apply Forall_cons in Hall as [Hq Hall].
  simpl. destruct (timestamp p <? timestamp q)%float eqn:Hpq.
  - change (ascending_by_timestamp (p :: q :: l))
      with ((timestamp p <=? timestamp q)%float && ascending_by_timestamp (q :: l)).
    by rewrite (ltb_leb _ _ Hpq), Hasc.
  - assert (Hqp : (timestamp q <=? timestamp p)%float = true)
      by exact (leb_total _ _ _ _ Hq Hp Hpq).
    assert (Hl : ascending_by_timestamp l = true).
    { destruct l; [done|]. simpl in Hasc. by apply andb_true_iff in Hasc as [_ ?]. }
    specialize (IH Hall Hl).
    destruct l as [|r l]; simpl.
    + by rewrite Hqp.
    + simpl in IH. destruct (timestamp p <? timestamp r)%float.
      * rewrite Hqp. exact IH.
      * simpl in Hasc. apply andb_true_iff in Hasc as [Hqr _].
        rewrite Hqr. exact IH.
Qed.

Lemma sort_by_timestamp_ascending bound l :
  Forall (fun q => (timestamp q <=? bound)%float = true) l ->
  ascending_by_timestamp (sort_by_timestamp l) = true.
Proof.
  unfold sort_by_timestamp.
  assert (H : forall acc,
             Forall (fun q => (timestamp q <=? bound)%float = true) l ->
             Forall (fun q => (timestamp q <=? bound)%float = true) acc ->
             ascending_by_timestamp acc = true ->
             ascending_by_timestamp
               (fold_left (fun acc p => insert_by_timestamp p acc) l acc) = true).
  { induction l as [|p l IH]; intros acc Hl Hacc Hasc; [done|].
    apply Forall_cons in Hl as [Hp Hl]. simpl. apply IH; [done| |].
    - rewrite insert_by_timestamp_perm. by constructor.
    - by apply insert_by_timestamp_ascending with bound. }
  intros Hl. by apply H.
Qed.

(** X1: the positions of a window are the fixes of the history whose
    time stamps lie between [end_time - window_seconds] and [end_time],
    each as often as the history has it, in ascending order of time. *)
Theorem window_positions_sorted history end_time window_seconds :
  get_positions_in_window history end_time window_seconds
  ≡ₚ filter (fun p => (end_time - window_seconds <=? timestamp p)%float
                      && (timestamp p <=? end_time)%float = true) history
  /\ ascending_by_timestamp
       (get_positions_in_window history end_time window_seconds) = true.
Proof.
  unfold get_positions_in_window. split.
  - apply sort_by_timestamp_perm.
  - apply sort_by_timestamp_ascending with end_time.
    apply Forall_forall. intros p [Hp _]%list_elem_of_filter.
    by apply andb_true_iff in Hp as [_ ?].
Qed.

(** X2: when the status is "moving", the stopped duration read at the
    same time is 0. *)
Theorem moving_means_no_stopped_duration history driver current_time :
  fst (get_movement_status haversine_distance history driver current_time)
  = Moving ->
  get_stopped_duration haversine_distance history current_time = Ok 0.
Proof.
  unfold get_movement_status, get_stopped_duration.
  destruct (length history <? 2)%nat; [done|]. cbv zeta.
  destruct (0.028 <? compute_window_distance haversine_distance
                       history current_time 300)%float; [done|].
  by repeat case_match.
Qed.

Lemma scan_back_origin test history otherwise :
  scan_back test history otherwise = otherwise
  \/ exists p, p ∈ history
               /\ timestamp p = scan_back test history otherwise
               /\ test (timestamp p) = true.
Proof.
  unfold scan_back.
  destruct (find _ (rev history)) as [p|] eqn:Hfind; [|by left].
  right. apply find_some in Hfind as [Hin Htest].
  exists p. split; [|done].
  apply list_elem_of_In. by apply in_rev.
Qed.

(** X3: the time stamp that comes with "moving" or "stopped" is the
    reading of the clock or the time stamp of a fix of the history whose
    five minutes show, for "moving", no movement and, for "stopped",
    movement; "unknown" comes with none. *)
Theorem movement_status_timestamp history driver current_time status since :
  (2 <= length history)%nat ->
  get_movement_status haversine_distance history driver current_time
  = (status, since) ->
  match status with
  | Unknown => since = None
  | Moving =>
      exists ts, since = Some ts
        /\ (ts = current_time
            \/ exists p, p ∈ history /\ timestamp p = ts
                 /\ window_shows_movement haversine_distance history ts = false)
  | Stopped =>
      exists ts, since = Some ts
        /\ (ts = current_time
            \/ exists p, p ∈ history /\ timestamp p = ts
                 /\ window_shows_movement haversine_distance history ts = true)
  end.
Proof.
  intros Hlen. apply Nat.ltb_ge in Hlen.
  unfold get_movement_status. rewrite Hlen. cbv zeta.
  set (back_moving := scan_back _ history current_time).
  set (back_stopped := scan_back (window_shows_movement _ _) history current_time).
  assert (Hmoving :
    back_moving = current_time
    \/ exists p, p ∈ history /\ timestamp p = back_moving
         /\ window_shows_movement haversine_distance history back_moving = false).
  { destruct (scan_back_origin
                (fun end_ts =>
                   (compute_window_distance haversine_distance history end_ts 300
                    <=? 0.028)%float) history current_time)
      as [?|(p & Hin & Hts & Htest)]; [by left|right].
    exists p. split; [done|]. split; [done|].
    fold back_moving in Hts. rewrite <- Hts. unfold window_shows_movement.
    destruct (0.028 <? _)%float eqn:Hlt; [|done].
    by rewrite (ltb_leb_false _ _ Hlt) in Htest. }
  assert (Hstopped :
    back_stopped = current_time
    \/ exists p, p ∈ history /\ timestamp p = back_stopped
         /\ window_shows_movement haversine_distance history back_stopped = true).
  { destruct (scan_back_origin (window_shows_movement haversine_distance history)
                history current_time)
      as [?|(p & Hin & Hts & Htest)]; [by left|right].
    exists p. fold back_stopped in Hts. by rewrite <- Hts. }
  destruct (compute_window_distance _ _ _ _ <? 0.0001)%float;
    [destruct (length (get_positions_in_window _ _ _) <? 2)%nat;
     [by intros [= <- <-]|]|];
    destruct (0.028 <? _)%float; intros [= <- <-]; eauto.
Qed.

End ClassifierMore.


(** ** Speeds *)

Section SpeedFacts.

Variable haversine_distance : float -> float -> float -> float -> float.

Lemma py_div_positive (x y : float) :
  (0 <? y)%float = true -> py_div x y = Ok (x / y)%float.
Proof. intros Hy. unfold py_div. by rewrite (ltb_eqb_false _ _ Hy). Qed.

Lemma calculate_speed_outcome history minutes now :
  exists speed_mph,
    calculate_speed haversine_distance history minutes now = Ok speed_mph
    /\ is_realistic_speed speed_mph = true.
Proof.
  unfold calculate_speed.
  destruct (length history <? 2)%nat; [by eexists|]. cbv zeta.
  destruct (filter _ history) as [|oldest [|second rest]]; try by eexists.
  destruct (last _) as [newest|]; [|by eexists].
  destruct (0 <? _)%float eqn:Hpos; [|by eexists].
  rewrite (py_div_positive _ _ Hpos). simpl.
  destruct (is_realistic_speed _) eqn:Hreal; by eexists.
Qed.

Lemma vehicle_icon_speed_outcome history now_1 now_5 :
  exists one_min_speed five_min_speed icon_speed,
    calculate_speed haversine_distance history 1 now_1 = Ok one_min_speed
    /\ calculate_speed haversine_distance history 5 now_5 = Ok five_min_speed
    /\ calculate_vehicle_icon_speed haversine_distance history now_1 now_5
       = Ok icon_speed
    /\ is_realistic_speed icon_speed = true
    /\ icon_speed
       = (if (0 <? one_min_speed)%float then one_min_speed
          else if (0 <? five_min_speed)%float then five_min_speed
          else 0%float).
Proof.
  destruct (calculate_speed_outcome history 1 now_1) as (s1 & Hs1 & Hr1).
  destruct (calculate_speed_outcome history 5 now_5) as (s5 & Hs5 & Hr5).
  exists s1, s5. unfold calculate_vehicle_icon_speed. rewrite Hs1. simpl.
  destruct (0 <? s1)%float; [by eexists|].
  rewrite Hs5. simpl. destruct (0 <? s5)%float; by eexists.
Qed.

(** X6: a segment whose time stamps do not increase (a repeated or
    out-of-order fix), or whose speed is at most 0.5 mph, adds nothing to
    the distance and the time that [calculate_average_moving_speed]
    divides, wherever it lies in the window. *)
Theorem slow_or_unordered_segment_skipped prev_loc curr_loc :
  (0 <? timestamp curr_loc - timestamp prev_loc)%float = false
  \/ (exists seg_speed,
        segment_speed (distance_between haversine_distance prev_loc curr_loc)
                      (timestamp curr_loc - timestamp prev_loc)%float
        = Ok seg_speed
        /\ (0.5 <? seg_speed)%float = false) ->
  forall acc front after acc1,
    moving_segments_loop haversine_distance acc (front ++ [prev_loc]) = Ok acc1 ->
    moving_segments_loop haversine_distance acc
      (front ++ prev_loc :: curr_loc :: after)
    = moving_segments_loop haversine_distance acc1 (curr_loc :: after).
Proof.
  intros Hskip acc front after acc1 Hfront.
  rewrite moving_segments_loop_snoc, Hfront. simpl.
  assert (Hstep : moving_segment_step haversine_distance acc1 prev_loc curr_loc
                  = Ok acc1).
  { unfold moving_segment_step. cbv zeta.
    destruct (0 <? timestamp curr_loc - timestamp prev_loc)%float eqn:Hdt.
    - destruct Hskip as [?|(s & Hs & Hslow)]; [done|].
      rewrite Hs. simpl. rewrite Hslow. by rewrite andb_false_r.
    - reflexivity. }
  by rewrite Hstep.
Qed.

End SpeedFacts.

(** ** Speeds, with the distance as Python computes it *)

Section PartialSpeedFacts.

Variable haversine_value : float -> float -> float -> float -> option float.

Lemma partial_calculate_speed_outcome history minutes now :
  match Partial.calculate_speed haversine_value history minutes now with
  | Ok speed_mph => is_realistic_speed speed_mph = true
  | Raise e =>
      e = ValueError
      /\ exists oldest newest,
           oldest ∈ history /\ newest ∈ history
           /\ haversine_value (latitude oldest) (longitude oldest)
                              (latitude newest) (longitude newest) = None
  end.
Proof.
  unfold Partial.calculate_speed.
  destruct (length history <? 2)%nat; [done|]. cbv zeta.
  destruct (filter _ history) as [|oldest [|second rest]] eqn:Hwindow;
    try done.
  destruct (last _) as [newest|] eqn:Hlast; simpl; [|done].
  unfold Partial.haversine_distance.
  destruct (haversine_value _ _ _ _) as [distance_miles|] eqn:Hdistance; simpl.
  - destruct (0 <? _)%float eqn:Hpos; [|done].
    rewrite (py_div_positive _ _ Hpos). simpl.
    by destruct (is_realistic_speed _) eqn:Hreal.
  - split; [done|]. exists oldest, newest.
    assert (Hin : forall p, p ∈ oldest :: second :: rest -> p ∈ history).
    { intros p Hp. rewrite <- Hwindow in Hp.
      by apply list_elem_of_filter in Hp as [_ ?]. }
    split; [apply Hin; by left|]. split; [|done].
    apply Hin. by apply last_Some_elem_of.
Qed.

(** X4: [calculate_speed] never divides by zero.  It raises only the
    [ValueError] of the distance between two fixes of the history, and
    the speed it returns is realistic: between 0 and 90 mph. *)
Theorem calculate_speed_realistic history minutes now :
  match Partial.calculate_speed haversine_value history minutes now with
  | Ok speed_mph => is_realistic_speed speed_mph = true
  | Raise e =>
      e = ValueError
      /\ exists oldest newest,
           oldest ∈ history /\ newest ∈ history
           /\ haversine_value (latitude oldest) (longitude oldest)
                              (latitude newest) (longitude newest) = None
  end.
Proof. apply partial_calculate_speed_outcome. Qed.

(** X5: [calculate_vehicle_icon_speed] returns a realistic speed: the
    1-minute speed when that is above 0, otherwise the 5-minute speed when
    that is above 0, otherwise 0.  It raises only the [ValueError] that
    [calculate_speed] raises for one of the two windows, the 5-minute one
    being computed only when the 1-minute speed is not above 0. *)
Theorem vehicle_icon_speed_prefers_one_minute history now_1 now_5 :
  let one_min := Partial.calculate_speed haversine_value history 1 now_1 in
  let five_min := Partial.calculate_speed haversine_value history 5 now_5 in
  match Partial.calculate_vehicle_icon_speed haversine_value history now_1 now_5 with
  | Ok icon_speed =>
      is_realistic_speed icon_speed = true
      /\ exists one_min_speed,
           one_min = Ok one_min_speed
           /\ if (0 <? one_min_speed)%float then icon_speed = one_min_speed
              else exists five_min_speed,
                     five_min = Ok five_min_speed
                     /\ icon_speed = if (0 <? five_min_speed)%float
                                     then five_min_speed else 0%float
  | Raise e =>
      e = ValueError
      /\ (one_min = Raise ValueError
          \/ exists one_min_speed,
               one_min = Ok one_min_speed
               /\ (0 <? one_min_speed)%float = false
               /\ five_min = Raise ValueError)
  end.
Proof.
  cbv zeta.
  pose proof (partial_calculate_speed_outcome history 1 now_1) as H1.
  pose proof (partial_calculate_speed_outcome history 5 now_5) as H5.
  unfold Partial.calculate_vehicle_icon_speed.
  destruct (Partial.calculate_speed haversine_value history 1 now_1)
    as [s1|e1]; simpl.
  - destruct (0 <? s1)%float eqn:Hone.
    + split; [done|]. exists s1. by rewrite Hone.
    + destruct (Partial.calculate_speed haversine_value history 5 now_5)
        as [s5|e5]; simpl.
      * destruct (0 <? s5)%float eqn:Hfive.
        -- split; [done|]. exists s1. rewrite Hone. split; [done|].
           exists s5. by rewrite Hfive.
        -- split; [done|]. exists s1. rewrite Hone. split; [done|].
           exists s5. by rewrite Hfive.
      * destruct H5 as [-> _]. split; [done|]. right. by exists s1.
  - destruct H1 as [-> _]. split; [done|]. by left.
Qed.

(** Where the distance returns on every input, the two functions are
    the ones the ingest pipeline is modelled with. *)
Lemma partial_calculate_speed_total
    (distance : float -> float -> float -> float -> float) history minutes now :
  Partial.calculate_speed (fun a b c d => Some (distance a b c d))
    history minutes now
  = calculate_speed distance history minutes now.
Proof.
  unfold Partial.calculate_speed, calculate_speed, distance_between.
  by repeat case_match.
Qed.

Lemma partial_calculate_vehicle_icon_speed_total
    (distance : float -> float -> float -> float -> float) history now_1 now_5 :
  Partial.calculate_vehicle_icon_speed (fun a b c d => Some (distance a b c d))
    history now_1 now_5
  = calculate_vehicle_icon_speed distance history now_1 now_5.
Proof.
  unfold Partial.calculate_vehicle_icon_speed, calculate_vehicle_icon_speed.
  by rewrite !partial_calculate_speed_total.
Qed.

(** X7: [calculate_startup_speed] returns 0 when no last location was
    saved and never divides by zero; whenever it returns, the speed is
    realistic, and it is 0 when more than 8 hours have passed since the
    location was saved. *)
Theorem startup_speed_realistic last_location current_lat current_lng current_time :
  let startup_speed :=
    Partial.calculate_startup_speed haversine_value last_location
      current_lat current_lng current_time in
  (json_truthy last_location = false -> startup_speed = Ok 0%float)
  /\ startup_speed <> Raise ZeroDivisionError
  /\ forall speed_mph,
       startup_speed = Ok speed_mph ->
       is_realistic_speed speed_mph = true
       /\ forall last_ts,
            (do saved <- py_getitem last_location "timestamp"; py_float saved)
            = Ok last_ts ->
            (8 <? (current_time - last_ts) / 3600)%float = true ->
            speed_mph = 0%float.
Proof.
  cbv zeta. unfold Partial.calculate_startup_speed.
  destruct (json_truthy last_location); simpl;
    [|by repeat split; intros; simplify_eq].
  split; [done|].
  assert (Hget : forall key, py_getitem last_location key <> Raise ZeroDivisionError).
  { intros key. unfold py_getitem. by repeat case_match. }
  assert (Hfloat : forall v, py_float v <> Raise ZeroDivisionError).
  { intros v. unfold py_float. by repeat case_match. }
  destruct (py_getitem last_location "latitude") as [last_lat|e] eqn:Hlat; simpl;
    [|split; [intros [= ->]; by destruct (Hget "latitude")|done]].
  destruct (py_getitem last_location "longitude") as [last_lng|e] eqn:Hlng; simpl;
    [|split; [intros [= ->]; by destruct (Hget "longitude")|done]].
  destruct (py_float last_lat) as [lat1|e] eqn:Hlat1; simpl;
    [|split; [intros [= ->]; by destruct (Hfloat last_lat)|done]].
  destruct (py_float last_lng) as [lon1|e] eqn:Hlon1; simpl;
    [|split; [intros [= ->]; by destruct (Hfloat last_lng)|done]].
  unfold Partial.haversine_distance.
  destruct (haversine_value lat1 lon1 current_lat current_lng)
    as [distance_miles|]; simpl; [|done].
  destruct (py_getitem last_location "timestamp") as [saved|e] eqn:Hts; simpl;
    [|split; [intros [= ->]; by destruct (Hget "timestamp")|done]].
  destruct (py_float saved) as [last_ts|e] eqn:Hts1; simpl;
    [|split; [intros [= ->]; by destruct (Hfloat saved)|done]].
  destruct (0 <? (current_time - last_ts) / 3600)%float eqn:Hpos; simpl;
    [|split; [done|]; by intros ? [= <-]].
  destruct (0.001 <? distance_miles)%float; [|split; [done|]; by intros ? [= <-]].
  rewrite (py_div_positive _ _ Hpos). simpl.
  destruct (is_realistic_speed _) eqn:Hreal; simpl;
    [|split; [done|]; by intros ? [= <-]].
  destruct (_ <=? 8)%float eqn:Hgap; [|split; [done|]; by intros ? [= <-]].
  split; [done|]. intros ? [= <-]. split; [done|].
  intros ? [= <-] Hlate. by rewrite (ltb_leb_false _ _ Hlate) in Hgap.
Qed.

End PartialSpeedFacts.


(** ** The ingest pipeline, further *)

Section IngestMore.

Variable date_of_timestamp : float -> string.
Variable haversine_distance : float -> float -> float -> float -> float.

(** What an ingest that ran to its end is made of. *)
Lemma ingest_success_inv new_lat new_lng clk w w' has_moved :
  process_fetched_location date_of_timestamp haversine_distance
    new_lat new_lng clk w = (w', (true, has_moved)) ->
  exists w2 moved current_speed is_moving,
    handle_segment_update_for_new_point date_of_timestamp haversine_distance
      new_lat new_lng (clk_ingest clk)
      (trim_history_hours 1 (clk_trim clk)
         (periodic_persist_history
            (append_history_point new_lat new_lng (clk_ingest clk) w)))
    = (w2, Ok moved)
    /\ calculate_vehicle_icon_speed haversine_distance (history w2)
         (clk_speed_1 clk) (clk_speed_5 clk) = Ok current_speed
    /\ compute_segment_moving_flag_for_new_point haversine_distance
         new_lat new_lng (clk_ingest clk) w2 = Ok is_moving
    /\ w' = call (save_last_location_call new_lat new_lng (clk_ingest clk))
              (update_driver_state haversine_distance new_lat new_lng
                 (clk_ingest clk) current_speed (clk_status clk) (clk_duration clk)
                 (call (update_daily_tracking_call new_lat new_lng (clk_ingest clk)
                          current_speed is_moving)
                    (update_travel_time date_of_timestamp (clk_ingest clk)
                       is_moving w2)))
    /\ has_moved
       = fst (detect_last_position_movement haversine_distance (driver w)
                new_lat new_lng).
Proof.
  unfold process_fetched_location. cbv zeta.
  destruct (detect_last_position_movement _ _ _ _) as [hm dm].
  destruct (handle_segment_update_for_new_point _ _ _ _ _ _) as [w2 [moved|]];
    [|intros [=]].
  destruct (calculate_vehicle_icon_speed _ _ _ _) as [current_speed|] eqn:Hspeed;
    [|intros [=]].
  destruct (compute_segment_moving_flag_for_new_point _ _ _ _ _) as [is_moving|]
    eqn:Hflag; [|intros [=]].
  intros [= <- <-]. by exists w2, moved, current_speed, is_moving.
Qed.

Lemma update_driver_state_fields
    lat lng current_time current_speed now_status now_duration w :
  let d := driver (update_driver_state haversine_distance lat lng current_time
                     current_speed now_status now_duration w) in
  drv_latitude d = lat /\ drv_longitude d = lng
  /\ last_updated d = current_time /\ speed d = current_speed
  /\ last_position d = Some (lat, lng).
Proof.
  unfold update_driver_state. cbv zeta.
  repeat case_match; done.
Qed.

(** X8: an ingest that succeeds leaves as history the old history with
    the fix appended, less the fixes older than one hour before the clock
    reading of the trim; so every fix it keeps is at most one hour old. *)
Theorem ingest_history new_lat new_lng clk w w' has_moved :
  process_fetched_location date_of_timestamp haversine_distance
    new_lat new_lng clk w = (w', (true, has_moved)) ->
  history w'
  = filter (fun loc => (clk_trim clk - 1 * 3600 <=? timestamp loc)%float = true)
           (history w ++ [Point new_lat new_lng (clk_ingest clk)])
  /\ Forall (fun loc => (clk_trim clk - 1 * 3600 <=? timestamp loc)%float = true)
            (history w').
Proof.
  intros Hrun.
  assert (Hhist :
    history (fst (process_fetched_location date_of_timestamp haversine_distance
                    new_lat new_lng clk w))
    = filter (fun loc => (clk_trim clk - 1 * 3600 <=? timestamp loc)%float = true)
             (history w ++ [Point new_lat new_lng (clk_ingest clk)])).
  { unfold process_fetched_location. cbv zeta.
    destruct (detect_last_position_movement _ _ _ _) as [hm dm].
    set (w1 := trim_history_hours _ _ _).
    assert (Hw1 : history w1
                  = filter (fun loc => (clk_trim clk - 1 * 3600 <=? timestamp loc)%float
                                       = true)
                           (history w ++ [Point new_lat new_lng (clk_ingest clk)])).
    { unfold w1, trim_history_hours, periodic_persist_history. simpl.
      by case_match. }
    pose proof (handle_segment_update_frame date_of_timestamp haversine_distance
                  new_lat new_lng (clk_ingest clk) w1) as [_ Hh].
    destruct (handle_segment_update_for_new_point _ _ _ _ _ w1) as [w2 outcome].
    cbv zeta in Hh. cbn [fst] in Hh. rewrite <- Hw1, <- Hh.
    destruct outcome as [moved|]; [|done].
    destruct (calculate_vehicle_icon_speed _ _ _ _) as [current_speed|]; [|done].
    destruct (compute_segment_moving_flag_for_new_point _ _ _ _ _) as [is_moving|];
      [|done].
    change (fst (?x, ?y)) with x. unfold call; cbn [history].
    rewrite update_driver_state_history. cbn [history].
    apply update_travel_time_frame. }
  rewrite Hrun in Hhist. cbn [fst] in Hhist.
  split; [exact Hhist|].
  apply Forall_forall. intros loc. rewrite Hhist.
  by intros [? _]%list_elem_of_filter.
Qed.

(** X10: after an ingest that succeeded the driver record holds the
    position of the fix, the time of the ingest and a realistic speed,
    and the last call issued saves that position and time as the last
    location. *)
Theorem successful_ingest_records_fix new_lat new_lng clk w w' has_moved :
  process_fetched_location date_of_timestamp haversine_distance
    new_lat new_lng clk w = (w', (true, has_moved)) ->
  drv_latitude (driver w') = new_lat
  /\ drv_longitude (driver w') = new_lng
  /\ last_updated (driver w') = clk_ingest clk
  /\ last_position (driver w') = Some (new_lat, new_lng)
  /\ is_realistic_speed (speed (driver w')) = true
  /\ last (io_log w')
     = Some (save_last_location_call new_lat new_lng (clk_ingest clk)).
Proof.
  intros Hrun.
  destruct (ingest_success_inv _ _ _ _ _ _ Hrun)
    as (w2 & moved & current_speed & is_moving & _ & Hicon & _ & -> & _).
  pose proof (update_driver_state_fields new_lat new_lng (clk_ingest clk)
                current_speed (clk_status clk) (clk_duration clk)
                (call (update_daily_tracking_call new_lat new_lng (clk_ingest clk)
                         current_speed is_moving)
                   (update_travel_time date_of_timestamp (clk_ingest clk)
                      is_moving w2)))
    as (Hlat & Hlng & Hupd & Hspeed & Hpos).
  cbv zeta in *.
  set (w3 := update_driver_state _ _ _ _ _ _ _ _) in *.
  change (driver (call (save_last_location_call new_lat new_lng (clk_ingest clk)) w3))
    with (driver w3).
  change (io_log (call (save_last_location_call new_lat new_lng (clk_ingest clk)) w3))
    with (io_log w3 ++ [save_last_location_call new_lat new_lng (clk_ingest clk)]).
  rewrite Hlat, Hlng, Hupd, Hspeed, Hpos.
  repeat split; try done.
  - destruct (vehicle_icon_speed_outcome haversine_distance (history w2)
                (clk_speed_1 clk) (clk_speed_5 clk))
      as (s1 & s5 & icon & _ & _ & Hicon' & Hreal & _).
    congruence.
  - apply last_snoc.
Qed.

(** *** Legacy daily stats, further *)

Lemma update_daily_stats_other_days distance_miles current_time lat lng w day :
  day <> date_of_timestamp current_time ->
  daily_stats (update_daily_stats date_of_timestamp
                 distance_miles current_time lat lng w) !! day
  = daily_stats w !! day.
Proof.
  intros Hne. unfold update_daily_stats. cbv zeta. simpl.
  rewrite lookup_alter_ne by done.
  destruct (daily_stats w !! date_of_timestamp current_time); [done|].
  by rewrite lookup_insert_ne.
Qed.

Lemma set_daily_start_location_other_days lat lng current_time w day :
  day <> date_of_timestamp current_time ->
  daily_stats (set_daily_start_location date_of_timestamp
                 lat lng current_time w) !! day
  = daily_stats w !! day.
Proof.
  intros Hne. unfold set_daily_start_location. cbv zeta.
  destruct (daily_stats w !! date_of_timestamp current_time) as [e|] eqn:He.
  - rewrite He. destruct (start_location e); simpl; [done|].
    by rewrite lookup_insert_ne.
  - rewrite lookup_insert_eq. simpl. by rewrite !lookup_insert_ne.
Qed.

Lemma update_travel_time_other_days current_time is_moving w day :
  day <> date_of_timestamp current_time ->
  daily_stats (update_travel_time date_of_timestamp current_time is_moving w)
    !! day
  = daily_stats w !! day.
Proof.
  intros Hne. unfold update_travel_time. cbv zeta.
  destruct (daily_stats w !! date_of_timestamp current_time); [|done].
  simpl. by rewrite lookup_insert_ne.
Qed.

Lemma handle_segment_update_other_days new_lat new_lng current_time w day :
  day <> date_of_timestamp current_time ->
  daily_stats (fst (handle_segment_update_for_new_point date_of_timestamp
                      haversine_distance new_lat new_lng current_time w)) !! day
  = daily_stats w !! day.
Proof.
  intros Hne. unfold handle_segment_update_for_new_point. cbv zeta.
  repeat case_match; simpl; try done.
  rewrite set_daily_start_location_other_days by done.
  by apply update_daily_stats_other_days.
Qed.

(** X11: an ingest changes the legacy daily stats of no day but the day
    of its own time stamp. *)
Theorem ingest_touches_one_day new_lat new_lng clk w day :
  day <> date_of_timestamp (clk_ingest clk) ->
  daily_stats (fst (process_fetched_location date_of_timestamp
                      haversine_distance new_lat new_lng clk w)) !! day
  = daily_stats w !! day.
Proof.
  intros Hne. unfold process_fetched_location. cbv zeta.
  destruct (detect_last_position_movement _ _ _ _) as [hm dm].
  set (w1 := trim_history_hours _ _ _).
  assert (Hw1 : daily_stats w1 = daily_stats w).
  { unfold w1, trim_history_hours, periodic_persist_history. simpl. by case_match. }
  pose proof (handle_segment_update_other_days new_lat new_lng (clk_ingest clk)
                w1 day Hne) as Hseg.
  destruct (handle_segment_update_for_new_point _ _ _ _ _ w1) as [w2 outcome].
  cbn [fst] in Hseg. rewrite <- Hw1, <- Hseg.
  destruct outcome as [moved|]; [|done].
  destruct (calculate_vehicle_icon_speed _ _ _ _) as [current_speed|]; [|done].
  destruct (compute_segment_moving_flag_for_new_point _ _ _ _ _) as [is_moving|];
    [|done].
  change (fst (?x, ?y)) with x. unfold call; cbn [daily_stats].
  rewrite update_driver_state_daily_stats. cbn [daily_stats].
  by apply update_travel_time_other_days.
Qed.

Lemma update_daily_stats_today d t lat lng w :
  exists e0,
    (daily_stats w !! date_of_timestamp t = Some e0
     \/ (daily_stats w !! date_of_timestamp t = None
         /\ total_miles e0 = 0%float /\ start_location e0 = None
         /\ first_movement_time e0 = None))
    /\ daily_stats (update_daily_stats date_of_timestamp d t lat lng w)
         !! date_of_timestamp t
       = Some {| total_miles := (total_miles e0 + d)%float;
                 start_time := start_time e0;
                 start_location := start_location e0;
                 end_location := Some (lat, lng);
                 first_movement_time := first_movement_time e0;
                 last_movement_time := Some t;
                 total_travel_time := total_travel_time e0;
                 last_update_time := t;
                 last_movement_update := last_movement_update e0 |}.
Proof.
  unfold update_daily_stats. cbv zeta.
  cbn [daily_stats with_daily_stats persist_daily_stats call].
  rewrite lookup_alter_eq.
  destruct (daily_stats w !! date_of_timestamp t) as [e|] eqn:He.
  - exists e. rewrite He. split; [by left|done].
  - eexists. rewrite lookup_insert_eq. split; [right|reflexivity].
    by repeat split.
Qed.

Lemma set_daily_start_location_today lat lng t w e :
  daily_stats w !! date_of_timestamp t = Some e ->
  daily_stats (set_daily_start_location date_of_timestamp lat lng t w)
    !! date_of_timestamp t
  = Some match start_location e with
         | Some _ => e
         | None =>
             {| total_miles := total_miles e;
                start_time := start_time e;
                start_location := Some (lat, lng);
                end_location := end_location e;
                first_movement_time := Some t;
                last_movement_time := last_movement_time e;
                total_travel_time := total_travel_time e;
                last_update_time := last_update_time e;
                last_movement_update := last_movement_update e |}
         end.
Proof.
  intros He. unfold set_daily_start_location. cbv zeta. rewrite He.
  cbv beta iota. rewrite He.
  destruct (start_location e) eqn:Hloc.
  - by cbn [daily_stats with_daily_stats].
  - cbn [daily_stats with_daily_stats persist_daily_stats call].
    by rewrite lookup_insert_eq.
Qed.

(** X12: when the segment from the previous fix to the new one is
    realistic and longer than 0.001 miles, the segment update adds its
    length to the mileage of the day, creating the day's entry from 0 when
    there is none; it records the new position as the day's end location
    and, if the day has no start location yet, as its start location with
    the time of the fix as first movement time. *)
Theorem realistic_segment_accounted
    new_lat new_lng current_time w prev_location seg_speed :
  let today := date_of_timestamp current_time in
  let seg_dist :=
    haversine_distance (latitude prev_location) (longitude prev_location)
                       new_lat new_lng in
  (2 <= length (history w))%nat ->
  penultimate (history w) = Some prev_location ->
  (current_time - timestamp prev_location <=? 0)%float = false ->
  segment_speed seg_dist (current_time - timestamp prev_location)%float
  = Ok seg_speed ->
  is_realistic_speed seg_speed = true ->
  (0.001 <? seg_dist)%float = true ->
  exists w' e',
    handle_segment_update_for_new_point date_of_timestamp haversine_distance
      new_lat new_lng current_time w = (w', Ok true)
    /\ daily_stats w' !! today = Some e'
    /\ get_daily_mileage today w' = (get_daily_mileage today w + seg_dist)%float
    /\ end_location e' = Some (new_lat, new_lng)
    /\ last_movement_time e' = Some current_time
    /\ match daily_stats w !! today ≫= start_location with
       | Some loc =>
           start_location e' = Some loc
           /\ first_movement_time e'
              = daily_stats w !! today ≫= first_movement_time
       | None =>
           start_location e' = Some (new_lat, new_lng)
           /\ first_movement_time e' = Some current_time
       end.
Proof.
  intros today seg_dist Hlen Hprev Hdt Hspeed Hreal Hdist.
  apply Nat.ltb_ge in Hlen.
  unfold handle_segment_update_for_new_point. rewrite Hlen, Hprev. cbv zeta.
  fold seg_dist. rewrite Hdt, Hspeed, Hreal, Hdist. cbn [andb].
  destruct (update_daily_stats_today seg_dist current_time new_lat new_lng w)
    as (e0 & He0 & Hupd).
  fold today in He0, Hupd.
  pose proof (set_daily_start_location_today new_lat new_lng current_time
                _ _ Hupd) as Hset.
  fold today in Hset. cbn [start_location] in Hset.
  eexists _, _. split; [reflexivity|]. split; [exact Hset|].
  unfold get_daily_mileage. rewrite Hset.
  destruct He0 as [He|(He & Hmiles & Hloc & Hfirst)]; rewrite He.
  - destruct (start_location e0) as [loc|] eqn:Hloc;
      cbn; rewrite ?Hloc; by repeat split.
  - rewrite Hloc. cbn. rewrite Hmiles. by repeat split.
Qed.

End IngestMore.

(** ** Write-through of the daily statistics *)

Lemma last_saved_daily_stats_save log stats :
  last_saved_daily_stats (log ++ [save_daily_stats_call stats]) = Some stats.
Proof.
  unfold last_saved_daily_stats. rewrite omap_app. simpl. apply last_snoc.
Qed.

Lemma written_through_refl w : daily_stats_written_through w w.
Proof. by left. Qed.

Lemma written_through_trans w1 w2 w3 :
  daily_stats_written_through w1 w2 ->
  daily_stats_written_through w2 w3 ->
  daily_stats_written_through w1 w3.
Proof.
  intros [[Hd Hl]|Hs] [[Hd' Hl']|Hs'].
  - left. split; congruence.
  - by right.
  - right. congruence.
  - by right.
Qed.

Lemma written_through_persist stats w :
  daily_stats_written_through w (persist_daily_stats (with_daily_stats stats w)).
Proof. right. apply last_saved_daily_stats_save. Qed.

Lemma written_through_same_stats w w' c :
  daily_stats w' = daily_stats w ->
  (io_log w' = io_log w
   \/ (io_log w' = io_log w ++ [c]
       /\ forall stats, c <> save_daily_stats_call stats)) ->
  daily_stats_written_through w w'.
Proof.
  intros Hd [Hl|[Hl Hc]]; left; (split; [done|]); rewrite Hl; [done|].
  unfold last_saved_daily_stats. rewrite omap_app. simpl.
  destruct c; try by rewrite app_nil_r. by destruct (Hc stats).
Qed.

Section WriteThrough.

Variable date_of_timestamp : float -> string.
Variable haversine_distance : float -> float -> float -> float -> float.

Lemma update_daily_stats_written_through d t lat lng w :
  daily_stats_written_through w
    (update_daily_stats date_of_timestamp d t lat lng w).
Proof. apply written_through_persist. Qed.

Lemma set_daily_start_location_written_through lat lng t w :
  daily_stats_written_through w
    (set_daily_start_location date_of_timestamp lat lng t w).
Proof.
  unfold set_daily_start_location. cbv zeta.
  destruct (daily_stats w !! date_of_timestamp t) as [e|] eqn:He.
  - rewrite He. destruct (start_location e).
    + by left.
    + apply written_through_persist.
  - rewrite lookup_insert_eq. cbn [start_location].
    apply written_through_persist.
Qed.

Lemma update_travel_time_written_through t is_moving w :
  daily_stats_written_through w
    (update_travel_time date_of_timestamp t is_moving w).
Proof.
  unfold update_travel_time. cbv zeta.
  destruct (daily_stats w !! date_of_timestamp t).
  - apply written_through_persist.
  - apply written_through_refl.
Qed.

Lemma handle_segment_update_written_through new_lat new_lng t w :
  daily_stats_written_through w
    (fst (handle_segment_update_for_new_point date_of_timestamp
            haversine_distance new_lat new_lng t w)).
Proof.
  unfold handle_segment_update_for_new_point.
  repeat case_match; try apply written_through_refl.
  cbn [fst].
  eapply written_through_trans;
    [apply update_daily_stats_written_through
    |apply set_daily_start_location_written_through].
Qed.

Lemma update_driver_state_same_log lat lng t s n1 n2 w :
  daily_stats (update_driver_state haversine_distance lat lng t s n1 n2 w)
  = daily_stats w
  /\ io_log (update_driver_state haversine_distance lat lng t s n1 n2 w)
     = io_log w.
Proof. unfold update_driver_state. by repeat case_match. Qed.

Lemma process_fetched_location_written_through new_lat new_lng clk w :
  daily_stats_written_through w
    (fst (process_fetched_location date_of_timestamp haversine_distance
            new_lat new_lng clk w)).
Proof.
  unfold process_fetched_location. cbv zeta.
  destruct (detect_last_position_movement _ _ _ _) as [has_moved distance_moved].
  set (w0 := trim_history_hours _ _ _).
  assert (H0 : daily_stats_written_through w w0).
  { subst w0. unfold trim_history_hours, periodic_persist_history,
      append_history_point. cbv zeta.
    case_match.
    - eapply (written_through_same_stats _ _ (save_historical_data_call _));
        [reflexivity|right; split; [reflexivity|done]].
    - by left. }
  pose proof (handle_segment_update_written_through new_lat new_lng
                (clk_ingest clk) w0) as H1.
  destruct (handle_segment_update_for_new_point _ _ _ _ _ w0) as [w1 r1].
  cbn [fst] in H1.
  pose proof (written_through_trans _ _ _ H0 H1) as H01.
  destruct r1 as [flag|]; [|exact H01].
  destruct (calculate_vehicle_icon_speed _ _ _ _) as [current_speed|];
    [|exact H01].
  destruct (compute_segment_moving_flag_for_new_point _ _ _ _ _)
    as [is_moving_segment|]; [|exact H01].
  cbn [fst].
  apply (written_through_trans _ _ _ H01).
  match goal with
  | |- daily_stats_written_through _
         (call _ (update_driver_state _ ?la ?ln ?t ?s ?n1 ?n2 (call ?c ?w2))) =>
      apply (written_through_trans _ w2 _);
        [apply update_travel_time_written_through|];
      destruct (update_driver_state_same_log la ln t s n1 n2 (call c w2))
        as [Hd Hl]
  end.
  left. cbn [daily_stats io_log call].
  rewrite Hd, Hl. cbn [daily_stats io_log call]. split; [done|].
  unfold last_saved_daily_stats. rewrite !omap_app. simpl.
  by rewrite !app_nil_r.
Qed.

(** X13: the daily statistics are written through.  Over a run of
    ingests, whatever they are and whether they succeed or fail, either
    the statistics in memory are unchanged and [save_daily_stats] was not
    called, or the latest call of [save_daily_stats] was given the
    statistics as they are in memory at the end. *)
Theorem ingest_all_daily_stats_written_through fetched w :
  daily_stats_written_through w
    (ingest_all date_of_timestamp haversine_distance fetched w).
Proof.
  revert w. induction fetched as [|[[new_lat new_lng] clk] rest IH]; intros w.
  - apply written_through_refl.
  - simpl. eapply written_through_trans;
      [apply process_fetched_location_written_through|apply IH].
Qed.

End WriteThrough.

(** ** Saving and loading again *)

Lemma redis_set_get r key t r' :
  redis_set r key t = Ok r' ->
  redis_get r' key = Ok (Some t).
Proof.
  unfold redis_set, redis_get. destruct (redis_up r) eqn:Hup; [|discriminate].
  intros [= <-]. simpl. by rewrite lookup_insert_eq.
Qed.

Lemma redis_set_fetch r key v r' :
  redis_set r key (Dumped v) = Ok r' ->
  redis_fetch r' key = Ok (Some v).
Proof.
  intros Hset. unfold redis_fetch. by rewrite (redis_set_get _ _ _ _ Hset).
Qed.

Lemma redis_set_raises r key t e :
  redis_set r key t = Raise e ->
  forall key', redis_fetch r key' = Raise ConnectionError.
Proof.
  unfold redis_set, redis_fetch, redis_get.
  destruct (redis_up r); [discriminate|]. done.
Qed.

Lemma write_json_read fs path v fs' :
  write_json fs path v = Ok fs' ->
  path_exists fs' path = true /\ read_json fs' path = Ok v.
Proof.
  unfold write_json, path_exists, read_json.
  destruct (disk_ok fs) eqn:Hok; [|discriminate].
  intros [= <-]. simpl. rewrite lookup_insert_eq. split; [|done].
  by apply bool_decide_eq_true.
Qed.

Lemma save_to_file_read path v b b' :
  disk_ok (disk b) = true ->
  save_to_file path v b = Ok b' ->
  redis_client b' = redis_client b
  /\ path_exists (disk b') path = true
  /\ read_json (disk b') path = Ok v.
Proof.
  intros Hok. unfold save_to_file.
  destruct (write_json (disk b) path v) as [fs|] eqn:Hw.
  - intros [= <-]. split; [done|]. by apply write_json_read with (disk b).
  - unfold write_json in Hw. by rewrite Hok in Hw.
Qed.

(** X14: a history that [save_historical_data] saved is what
    [load_historical_data] loads next, when the cache answers or the disk
    can be written. *)
Theorem history_saved_then_loaded history b b' :
  is_list history = true ->
  (exists r, redis_client b = Some r /\ redis_up r = true)
  \/ disk_ok (disk b) = true ->
  save_historical_data history b = Ok b' ->
  load_historical_data b' = Ok history.
Proof.
  intros Hlist Hback. unfold save_historical_data.
  destruct (redis_client b) as [r|] eqn:Hrc.
  - destruct (redis_set r _ _) as [r'|e] eqn:Hset.
    + intros [= <-]. unfold load_historical_data. cbn [redis_client with_redis].
      by rewrite (redis_set_fetch _ _ _ _ Hset), Hlist.
    + destruct Hback as [(r0 & [= <-] & Hup)|Hok].
      { unfold redis_set in Hset. by rewrite Hup in Hset. }
      intros Hsave.
      destruct (save_to_file_read _ _ _ _ Hok Hsave) as (Hrc' & Hex & Hread).
      unfold load_historical_data. rewrite Hrc', Hrc.
      rewrite (redis_set_raises _ _ _ _ Hset), Hex, Hread. simpl.
      by rewrite Hlist.
  - destruct Hback as [(r0 & [=] & _)|Hok].
    intros Hsave.
    destruct (save_to_file_read _ _ _ _ Hok Hsave) as (Hrc' & Hex & Hread).
    unfold load_historical_data. rewrite Hrc', Hrc, Hex, Hread. simpl.
    by rewrite Hlist.
Qed.

(** X15: the daily statistics that [save_daily_stats] saved are what
    [load_daily_stats] loads next, when the cache answers or the disk can
    be written. *)
Theorem daily_stats_saved_then_loaded stats b b' :
  is_dict stats = true ->
  (exists r, redis_client b = Some r /\ redis_up r = true)
  \/ disk_ok (disk b) = true ->
  save_daily_stats stats b = Ok b' ->
  load_daily_stats b' = Ok stats.
Proof.
  intros Hdict Hback. unfold save_daily_stats.
  destruct (redis_client b) as [r|] eqn:Hrc.
  - destruct (redis_set r _ _) as [r'|e] eqn:Hset.
    + intros [= <-]. unfold load_daily_stats. cbn [redis_client with_redis].
      by rewrite (redis_set_fetch _ _ _ _ Hset), Hdict.
    + destruct Hback as [(r0 & [= <-] & Hup)|Hok].
      { unfold redis_set in Hset. by rewrite Hup in Hset. }
      intros Hsave.
      destruct (save_to_file_read _ _ _ _ Hok Hsave) as (Hrc' & Hex & Hread).
      unfold load_daily_stats. rewrite Hrc', Hrc.
      rewrite (redis_set_raises _ _ _ _ Hset), Hex, Hread. simpl.
      by rewrite Hdict.
  - destruct Hback as [(r0 & [=] & _)|Hok].
    intros Hsave.
    destruct (save_to_file_read _ _ _ _ Hok Hsave) as (Hrc' & Hex & Hread).
    unfold load_daily_stats. rewrite Hrc', Hrc, Hex, Hread. simpl.
    by rewrite Hdict.
Qed.

(** X16: the location that [save_last_location] saved is what
    [load_last_location] loads next, when the cache answers, or when no
    cache is configured and the disk can be written. *)
Theorem last_location_saved_then_loaded lat lng ts b b' :
  (exists r, redis_client b = Some r /\ redis_up r = true)
  \/ (redis_client b = None /\ disk_ok (disk b) = true) ->
  save_last_location lat lng ts b = Ok b' ->
  load_last_location b'
  = Ok (JDict [("latitude", lat); ("longitude", lng); ("timestamp", ts)]).
Proof.
  intros Hback. unfold save_last_location. cbv zeta.
  destruct Hback as [(r & Hrc & Hup)|[Hrc Hok]]; rewrite Hrc.
  - destruct (redis_set r _ _) as [r'|e] eqn:Hset.
    + intros [= <-]. unfold load_last_location. cbn [redis_client with_redis].
      by rewrite (redis_set_fetch _ _ _ _ Hset).
    + unfold redis_set in Hset. by rewrite Hup in Hset.
  - intros Hsave.
    destruct (save_to_file_read _ _ _ _ Hok Hsave) as (Hrc' & Hex & Hread).
    unfold load_last_location. by rewrite Hrc', Hrc, Hex, Hread.
Qed.

(** ** The record of the day *)

Section DayRecordFacts.

Variable int_of_str : string -> result Z.
Variable minutes_since_start_of_day : json -> Z -> result Z.

Lemma create_empty_daily_file_loaded date_str start_time start_lat start_lng b b1 data :
  create_empty_daily_file date_str start_time start_lat start_lng b = Ok (b1, data) ->
  load_daily_file int_of_str minutes_since_start_of_day date_str b1
  = Ok (b1, Some data).
Proof.
  unfold create_empty_daily_file. cbv zeta.
  set (daily_data := JDict _).
  assert (Hmig' : forall b2,
             migrate_if_old int_of_str minutes_since_start_of_day date_str
               daily_data b2 = Ok (b2, daily_data)) by done.
  assert (Hfile : forall fs,
             write_json (disk b) (get_daily_file_path date_str) daily_data = Ok fs ->
             load_daily_from_file int_of_str minutes_since_start_of_day date_str
               (with_disk fs b)
             = Ok (with_disk fs b, Some daily_data)).
  { intros fs Hw. destruct (write_json_read _ _ _ _ Hw) as [Hex Hread].
    unfold load_daily_from_file. cbv zeta. cbn [disk with_disk].
    rewrite Hex, Hread. cbn [bind]. by rewrite Hmig'. }
  destruct (redis_client b) as [r|] eqn:Hrc.
  - destruct (redis_set r _ _) as [r'|e] eqn:Hset.
    + intros [= <- <-]. unfold load_daily_file. cbn [redis_client with_redis].
      rewrite (redis_set_fetch _ _ _ _ Hset). cbn [bind]. by rewrite Hmig'.
    + destruct (write_json _ _ _) as [fs|] eqn:Hw; cbn [bind]; [|discriminate].
      intros [= <- <-]. unfold load_daily_file. cbn [redis_client with_disk].
      rewrite Hrc, (redis_set_raises _ _ _ _ Hset). cbn [bind]. by apply Hfile.
  - destruct (write_json _ _ _) as [fs|] eqn:Hw; cbn [bind]; [|discriminate].
    intros [= <- <-]. unfold load_daily_file. cbn [redis_client with_disk].
    rewrite Hrc. by apply Hfile.
Qed.

(** X17: the record that [create_empty_daily_file] created is what
    [load_daily_file] returns next for that date, unchanged and without
    writing anything, whichever backend took it. *)
Theorem created_daily_file_then_loaded
    date_str start_time start_lat start_lng b b1 data :
  create_empty_daily_file date_str start_time start_lat start_lng b = Ok (b1, data) ->
  load_daily_file int_of_str minutes_since_start_of_day date_str b1
  = Ok (b1, Some data).
Proof. apply create_empty_daily_file_loaded. Qed.

Lemma convert_samples_length start_time items minute_locations out :
  convert_samples int_of_str minutes_since_start_of_day start_time items
    minute_locations = Ok out ->
  length out
  = (length minute_locations
     + if json_truthy start_time then length items else 0)%nat.
Proof.
  revert minute_locations.
  induction items as [|[timestamp_str sample] rest IH]; intros minute_locations.
  - simpl. intros [= <-]. destruct (json_truthy start_time); lia.
  - simpl. destruct (int_of_str timestamp_str) as [timestamp|]; simpl;
      [|discriminate].
    destruct (json_truthy start_time) eqn:Htruthy.
    + destruct (minutes_since_start_of_day start_time timestamp); simpl;
        [|discriminate].
      destruct (py_get sample "latitude" JNull); simpl; [|discriminate].
      destruct (py_get sample "longitude" JNull); simpl; [|discriminate].
      destruct (py_get sample "speed" (JInt 0)) as [sample_speed|]; simpl;
        [|discriminate].
      destruct (py_gt_one sample_speed); simpl; [|discriminate].
      intros Hrest. apply IH in Hrest. rewrite Hrest, length_app. simpl. lia.
    + intros Hrest. apply IH in Hrest. rewrite Hrest. lia.
Qed.

(** X18: a migrated record has one minute entry for each sample of the
    old record when the old record has a start time, and none when its
    start time is missing, null or zero: the samples are then dropped. *)
Theorem migration_minute_entries old_items samples new_data :
  dict_get old_items "samples_by_minute" = Some (JDict samples) ->
  migrate_old_daily_format int_of_str minutes_since_start_of_day (JDict old_items)
  = Ok new_data ->
  exists minute_locations,
    py_get new_data "minute_locations" JNull = Ok (JList minute_locations)
    /\ length minute_locations
       = if json_truthy (default JNull (dict_get old_items "start_time"))
         then length samples else 0%nat.
Proof.
  intros Hsamples. unfold migrate_old_daily_format. simpl.
  rewrite Hsamples. simpl.
  destruct (convert_samples _ _ _ samples []) as [minute_locations|] eqn:Hconv;
    simpl; [|discriminate].
  intros [= <-]. exists minute_locations. split; [reflexivity|].
  by rewrite (convert_samples_length _ _ _ _ Hconv).
Qed.

Lemma load_daily_file_none date_str b b0 :
  load_daily_file int_of_str minutes_since_start_of_day date_str b = Ok (b0, None) ->
  b0 = b
  /\ load_daily_from_file int_of_str minutes_since_start_of_day date_str b
     = Ok (b, None).
Proof.
  assert (Hfile : forall b0,
             load_daily_from_file int_of_str minutes_since_start_of_day date_str b
             = Ok (b0, None) ->
             b0 = b
             /\ load_daily_from_file int_of_str minutes_since_start_of_day
                  date_str b = Ok (b, None)).
  { intros b2 H. assert (b2 = b); [|by subst].
    revert H. unfold load_daily_from_file. cbv zeta.
    repeat case_match; intros [= ?]; by subst. }
  unfold load_daily_file. repeat case_match; try discriminate; by apply Hfile.
Qed.

(** X19: [get_current_day_data] gets or creates.  Once it has returned a
    record, a second call returns that record and leaves both backends as
    they are, whatever the clock and the driver's position then are: a
    second record is never created for the day. *)
Theorem get_current_day_data_idempotent
    today current_time current_lat current_lng b b1 data :
  get_current_day_data int_of_str minutes_since_start_of_day
    today current_time current_lat current_lng b = Ok (b1, data) ->
  forall current_time' current_lat' current_lng',
    get_current_day_data int_of_str minutes_since_start_of_day
      today current_time' current_lat' current_lng' b1 = Ok (b1, data).
Proof.
  intros Hfirst t' lat' lng'.
  assert (Hfound : forall b2 d,
             load_daily_file int_of_str minutes_since_start_of_day today b2
             = Ok (b2, Some d) ->
             get_current_day_data int_of_str minutes_since_start_of_day
               today t' lat' lng' b2 = Ok (b2, d)).
  { intros b2 d Hload. unfold get_current_day_data. rewrite Hload. simpl.
    by destruct (redis_client b2). }
  revert Hfirst. unfold get_current_day_data at 1.
  destruct (load_daily_file _ _ today b) as [[b0 [d|]]|] eqn:Hload; simpl;
    [| |discriminate].
  - destruct (redis_client b0); intros [= <- <-]; apply Hfound;
      by apply (load_daily_file_idempotent _ _ _ b).
  - destruct (load_daily_file_none _ _ _ Hload) as [-> Hfile].
    destruct (redis_client b) as [r|] eqn:Hrc;
      [|intros Hcreate; apply Hfound;
        by apply create_empty_daily_file_loaded in Hcreate].
    destruct (path_exists (disk b) (get_daily_file_path today)) eqn:Hex;
      [|intros Hcreate; apply Hfound;
        by apply create_empty_daily_file_loaded in Hcreate].
    destruct (read_json (disk b) (get_daily_file_path today))
      as [file_data|] eqn:Hread; simpl;
      [|intros Hcreate; apply Hfound;
        by apply create_empty_daily_file_loaded in Hcreate].
    destruct (redis_set r (daily_key today) (Dumped file_data))
      as [r'|] eqn:Hset; simpl;
      [|intros Hcreate; apply Hfound;
        by apply create_empty_daily_file_loaded in Hcreate].
    assert (Hnull : file_data = JNull \/ file_data <> JNull)
      by (destruct file_data; auto).
    destruct Hnull as [->|Hnot];
      [intros Hcreate; apply Hfound;
       by apply create_empty_daily_file_loaded in Hcreate|].
    assert (Hraise : exists e, forall b2,
               migrate_if_old int_of_str minutes_since_start_of_day today
                 file_data b2 = Raise e).
    { pose proof (migrate_if_old_outcome int_of_str minutes_since_start_of_day
                    today file_data b) as Hout.
      revert Hfile. unfold load_daily_from_file. cbv zeta.
      rewrite Hex, Hread. simpl.
      destruct (migrate_if_old _ _ today file_data b) as [[b2 d2]|e]; simpl;
        [discriminate|]. intros _. by exists e. }
    destruct Hraise as [e Hraise].
    assert (Hset' : redis_set r' (daily_key today) (Dumped file_data) = Ok r').
    { revert Hset. unfold redis_set. destruct (redis_up r); [|discriminate].
      intros [= <-]. simpl. by rewrite insert_insert_eq. }
    assert (Hagain : get_current_day_data int_of_str minutes_since_start_of_day
                       today t' lat' lng' (with_redis r' b)
                     = Ok (with_redis r' b, file_data)).
    { unfold get_current_day_data.
      assert (Hload' : load_daily_file int_of_str minutes_since_start_of_day
                         today (with_redis r' b)
                       = Ok (with_redis r' b, None)).
      { unfold load_daily_file. cbn [redis_client with_redis].
        rewrite (redis_set_fetch _ _ _ _ Hset). simpl. rewrite Hraise. simpl.
        unfold load_daily_from_file. cbv zeta. cbn [disk with_redis].
        rewrite Hex, Hread. simpl. by rewrite Hraise. }
      rewrite Hload'. simpl. rewrite Hex, Hread. simpl. rewrite Hset'. simpl.
      by destruct file_data. }
    destruct file_data; try done; by intros [= <- <-].
Qed.

End DayRecordFacts.

(** ** The journey drawn on the map *)

Lemma earliest_step_invariant earliest_gps_time seen earliest item :
  let qualifies (entry : day_stats) :=
    start_location entry <> None
    /\ float_truthy (start_time entry) = true
    /\ (start_time entry <? earliest_gps_time)%float = true in
  match earliest with
  | Some e =>
      (exists entry,
         In (ds_date e, entry) seen /\ qualifies entry
         /\ start_location entry = Some (ds_latitude e, ds_longitude e)
         /\ ds_timestamp e = start_time entry
         /\ ds_start_time e = start_time entry)
      /\ forall date_str entry,
           In (date_str, entry) seen -> qualifies entry ->
           (start_time entry <? ds_start_time e)%float = false
  | None => forall date_str entry, In (date_str, entry) seen -> ~ qualifies entry
  end ->
  match earliest_step earliest_gps_time earliest item with
  | Some e =>
      (exists entry,
         In (ds_date e, entry) (seen ++ [item]) /\ qualifies entry
         /\ start_location entry = Some (ds_latitude e, ds_longitude e)
         /\ ds_timestamp e = start_time entry
         /\ ds_start_time e = start_time entry)
      /\ forall date_str entry,
           In (date_str, entry) (seen ++ [item]) -> qualifies entry ->
           (start_time entry <? ds_start_time e)%float = false
  | None =>
      forall date_str entry, In (date_str, entry) (seen ++ [item]) -> ~ qualifies entry
  end.
Proof.
  intros qualifies Hinv. destruct item as [date_str entry].
  assert (Hkeep : ~ qualifies entry ->
            match earliest with
            | Some e =>
                (exists entry0,
                   In (ds_date e, entry0) (seen ++ [(date_str, entry)])
                   /\ qualifies entry0
                   /\ start_location entry0 = Some (ds_latitude e, ds_longitude e)
                   /\ ds_timestamp e = start_time entry0
                   /\ ds_start_time e = start_time entry0)
                /\ forall date_str0 entry0,
                     In (date_str0, entry0) (seen ++ [(date_str, entry)]) ->
                     qualifies entry0 ->
                     (start_time entry0 <? ds_start_time e)%float = false
            | None =>
                forall date_str0 entry0,
                  In (date_str0, entry0) (seen ++ [(date_str, entry)]) ->
                  ~ qualifies entry0
            end).
  { intros Hnot. destruct earliest as [e|].
    - destruct Hinv as [(entry0 & Hin & Hrest) Hmin]. split.
      + exists entry0. split; [apply in_or_app; by left|done].
      + intros d en [Hin'|[[= <- <-]|[]]]%in_app_or Hq; [by eapply Hmin|done].
    - intros d en [Hin'|[[= <- <-]|[]]]%in_app_or; [by eapply Hinv|done]. }
  unfold earliest_step.
  destruct (start_location entry) as [[lat lng]|] eqn:Hloc;
    [|apply Hkeep; intros [? _]; congruence].
  destruct (float_truthy (start_time entry)) eqn:Htruthy; simpl;
    [|apply Hkeep; intros (_ & ? & _); congruence].
  destruct (start_time entry <? earliest_gps_time)%float eqn:Hbefore;
    [|apply Hkeep; intros (_ & _ & ?); congruence].
  assert (Hq : qualifies entry) by (by repeat split; try rewrite Hloc).
  assert (Hfound : exists entry0,
             In (date_str, entry0) (seen ++ [(date_str, entry)])
             /\ qualifies entry0
             /\ start_location entry0 = Some (lat, lng)
             /\ start_time entry = start_time entry0
             /\ start_time entry = start_time entry0).
  { exists entry. split; [apply in_or_app; right; by left|done]. }
  destruct earliest as [e|].
  - destruct Hinv as [(entry0 & Hin & Hrest) Hmin].
    destruct (start_time entry <? ds_start_time e)%float eqn:Hless.
    + split; [exact Hfound|]. simpl.
      intros d en [Hin'|[[= <- <-]|[]]]%in_app_or Hq'; [|apply ltb_irrefl].
      destruct (start_time en <? start_time entry)%float eqn:Hlt; [|done].
      by rewrite <- (Hmin _ _ Hin' Hq'), (ltb_trans _ _ _ Hlt Hless).
    + split.
      * exists entry0. split; [apply in_or_app; by left|done].
      * intros d en [Hin'|[[= <- <-]|[]]]%in_app_or Hq'; [by eapply Hmin|done].
  - split; [exact Hfound|]. simpl.
    intros d en [Hin'|[[= <- <-]|[]]]%in_app_or Hq'; [|apply ltb_irrefl].
    by destruct (Hinv _ _ Hin').
Qed.

Lemma find_earliest_daily_start_invariant stats earliest_gps_time :
  let qualifies (entry : day_stats) :=
    start_location entry <> None
    /\ float_truthy (start_time entry) = true
    /\ (start_time entry <? earliest_gps_time)%float = true in
  match find_earliest_daily_start stats earliest_gps_time with
  | Some e =>
      (exists entry,
         In (ds_date e, entry) stats /\ qualifies entry
         /\ start_location entry = Some (ds_latitude e, ds_longitude e)
         /\ ds_timestamp e = start_time entry
         /\ ds_start_time e = start_time entry)
      /\ forall date_str entry,
           In (date_str, entry) stats -> qualifies entry ->
           (start_time entry <? ds_start_time e)%float = false
  | None => forall date_str entry, In (date_str, entry) stats -> ~ qualifies entry
  end.
Proof.
  intros qualifies. unfold find_earliest_daily_start.
  induction stats as [|item seen IH] using rev_ind.
  - simpl. by intros ? ? [].
  - rewrite fold_left_app. simpl.
    by apply (earliest_step_invariant earliest_gps_time seen).
Qed.

(** X20: the start that [find_earliest_daily_start] returns is the start
    of a day of the statistics that has a start location and a start time
    before the first GPS fix, and no such day starts earlier. *)
Theorem find_earliest_daily_start_is_earliest stats earliest_gps_time e :
  find_earliest_daily_start stats earliest_gps_time = Some e ->
  (exists entry,
     In (ds_date e, entry) stats
     /\ start_location entry = Some (ds_latitude e, ds_longitude e)
     /\ ds_timestamp e = start_time entry
     /\ ds_start_time e = start_time entry
     /\ float_truthy (start_time entry) = true
     /\ (start_time entry <? earliest_gps_time)%float = true)
  /\ forall date_str entry,
       In (date_str, entry) stats ->
       start_location entry <> None ->
       float_truthy (start_time entry) = true ->
       (start_time entry <? earliest_gps_time)%float = true ->
       (start_time entry <? ds_start_time e)%float = false.
Proof.
  intros Hfind.
  pose proof (find_earliest_daily_start_invariant stats earliest_gps_time) as Hinv.
  cbv zeta in Hinv. rewrite Hfind in Hinv.
  destruct Hinv as [(entry & Hin & (_ & Htruthy & Hbefore) & Hloc & Hts & Hst) Hmin].
  split; [by exists entry|].
  intros d en Hin' Hl Ht Hb. by apply (Hmin d en).
Qed.

(** X21: [find_earliest_daily_start] returns [None] only when no day of
    the statistics has a start location and a start time before the first
    GPS fix. *)
Theorem find_earliest_daily_start_none stats earliest_gps_time date_str entry :
  find_earliest_daily_start stats earliest_gps_time = None ->
  In (date_str, entry) stats ->
  float_truthy (start_time entry) = true ->
  (start_time entry <? earliest_gps_time)%float = true ->
  start_location entry = None.
Proof.
  intros Hfind Hin Ht Hb.
  pose proof (find_earliest_daily_start_invariant stats earliest_gps_time) as Hinv.
  cbv zeta in Hinv. rewrite Hfind in Hinv.
  destruct (start_location entry) eqn:Hloc; [|done].
  destruct (Hinv _ _ Hin). by rewrite Hloc.
Qed.

(** The element of index [k] of a sample is the element of index
    [skip + k * step] of the list sampled. *)
Lemma every_nth_lookup n skip l (k : nat) :
  every_nth (S n) skip l !! k
  = journey_point_of <$> l !! (skip + k * S n)%nat.
Proof.
  revert skip k. induction l as [|p l IH]; intros skip k; [done|].
  destruct skip as [|s].
  - cbn [every_nth]. replace (S n - 1)%nat with n by lia.
    destruct k as [|k]; [done|].
    cbn [lookup list_lookup]. rewrite IH.
    by replace (0 + S k * S n)%nat with (S (n + k * S n)) by lia.
  - cbn [every_nth]. rewrite IH. done.
Qed.

Section JourneyFacts.

Variable haversine_value : float -> float -> float -> float -> option float.

Lemma sample_history_points_from sorted_history step (start_index : Z) :
  0 < step ->
  exists sampled,
    (if step =? 0 then Raise ValueError
     else if step <? 0 then Ok []
     else Ok (every_nth (Z.to_nat step) (Z.to_nat start_index) sorted_history))
    = Ok sampled
    /\ forall k : nat,
         sampled !! k
         = journey_point_of <$>
             sorted_history !! (Z.to_nat start_index + k * Z.to_nat step)%nat.
Proof.
  intros Hstep.
  destruct (step =? 0) eqn:H0; [lia|].
  destruct (step <? 0) eqn:Hneg; [lia|].
  destruct (Z.to_nat step) as [|n] eqn:Hn; [lia|].
  eexists. split; [done|]. intros k. apply every_nth_lookup.
Qed.

(** X22: for a step of 1 or more, [sample_history_points] returns the
    fixes of the history at the indices [start], [start + step],
    [start + 2 * step], ... and nothing else, where [start] is [step]
    when there is an earliest daily start and the first fix lies less
    than a mile from it, and 0 otherwise; it raises only when the
    distance between the earliest daily start and the first fix does. *)
Theorem sample_history_points_sampled sorted_history earliest_daily_start step :
  0 < step ->
  let sampled_from (start : nat) (outcome : result (list journey_point)) :=
    exists sampled,
      outcome = Ok sampled
      /\ forall k : nat,
           sampled !! k
           = journey_point_of <$>
               sorted_history !! (start + k * Z.to_nat step)%nat in
  let outcome :=
    Partial.sample_history_points haversine_value sorted_history
      earliest_daily_start step in
  match earliest_daily_start, sorted_history with
  | Some e, first_gps :: _ =>
      match Partial.haversine_distance haversine_value
              (ds_latitude e) (ds_longitude e)
              (latitude first_gps) (longitude first_gps) with
      | Ok distance =>
          sampled_from (if (distance <? 1.0)%float then Z.to_nat step else 0%nat)
                       outcome
      | Raise err => outcome = Raise err
      end
  | _, _ => sampled_from 0%nat outcome
  end.
Proof.
  intros Hstep. cbv zeta. unfold Partial.sample_history_points.
  destruct earliest_daily_start as [e|], sorted_history as [|first_gps rest];
    cbn [bind];
    try (by apply (sample_history_points_from _ step 0 Hstep)).
  destruct (Partial.haversine_distance _ _ _ _ _) as [distance|err];
    cbn [bind]; [|done].
  destruct (distance <? 1.0)%float.
  - by apply (sample_history_points_from _ step step Hstep).
  - by apply (sample_history_points_from _ step 0 Hstep).
Qed.

End JourneyFacts.

(** ** The further properties on concrete inputs *)

(** X2 on two fixes a minute and 0.0281 miles apart. *)
Lemma moving_means_no_stopped_duration_witness :
  get_stopped_duration planar_distance
    [Point 0 0 1000; Point 0.0281 0 1060] 1070 = Ok 0.
Proof.
  apply (moving_means_no_stopped_duration planar_distance
           [Point 0 0 1000; Point 0.0281 0 1060]
           (Driver 0.0281 0 1060 0 None None) 1070).
  vm_compute. reflexivity.
Defined.

(** X3 on the same two fixes. *)
Lemma movement_status_timestamp_witness :
  let history := [Point 0 0 1000; Point 0.0281 0 1060] in
  let driver := Driver 0.0281 0 1060 0 None None in
  exists ts,
    snd (get_movement_status planar_distance history driver 1070) = Some ts
    /\ (ts = 1070%float
        \/ exists p, p ∈ history /\ timestamp p = ts
             /\ window_shows_movement planar_distance history ts = false).
Proof.
  intros history driver.
  exact (movement_status_timestamp planar_distance history driver 1070 Moving
           (snd (get_movement_status planar_distance history driver 1070))
           ltac:(vm_compute; lia) ltac:(vm_compute; reflexivity)).
Defined.

(** X6 on a fix repeated with the same time stamp a mile away. *)
Lemma slow_or_unordered_segment_skipped_witness :
  let prev_loc := Point 0 0 1000 in
  let curr_loc := Point 1 0 1000 in
  moving_segments_loop planar_distance (0, 0)%float
    ([] ++ prev_loc :: curr_loc :: [Point 1 0 1060])
  = moving_segments_loop planar_distance (0, 0)%float
      (curr_loc :: [Point 1 0 1060]).
Proof.
  intros prev_loc curr_loc.
  apply (slow_or_unordered_segment_skipped planar_distance prev_loc curr_loc
           (or_introl eq_refl) (0, 0)%float [] [Point 1 0 1060] (0, 0)%float).
  reflexivity.
Defined.

(** X8 on two fixes an hour and a half apart: the older one is
    trimmed. *)
Lemma ingest_history_witness :
  let w := Tracker (Driver 0 0 1000 0 None (Some (0, 0)%float))
                   [Point 0 0 1000] ∅ [] in
  let w' := fst (process_fetched_location single_day planar_distance
                   0.5 0.25 (clock_at 6400) w) in
  history w' = [Point 0.5 0.25 6400].
Proof.
  intros w w'.
  assert (Hrun : process_fetched_location single_day planar_distance
                   0.5 0.25 (clock_at 6400) w = (w', (true, true)))
    by (vm_compute; reflexivity).
  destruct (ingest_history single_day planar_distance _ _ _ _ _ _ Hrun)
    as [Hhistory _].
  rewrite Hhistory. reflexivity.
Defined.

(** X10 on the first fix after start-up. *)
Lemma successful_ingest_records_fix_witness :
  let run := process_fetched_location single_day planar_distance
               0.5 0.25 (clock_at 1000) fresh_tracker in
  snd run = (true, true)
  /\ drv_latitude (driver (fst run)) = 0.5%float
  /\ last (io_log (fst run)) = Some (save_last_location_call 0.5 0.25 1000).
Proof.
  intros run.
  assert (Hrun : process_fetched_location single_day planar_distance
                   0.5 0.25 (clock_at 1000) fresh_tracker
                 = (fst run, (true, true)))
    by (vm_compute; reflexivity).
  destruct (successful_ingest_records_fix single_day planar_distance
              _ _ _ _ _ _ Hrun) as (Hlat & _ & _ & _ & _ & Hlast).
  split; [reflexivity|]. by split.
Defined.

(** X11 on a moving segment ingested the day after a day of 12 miles. *)
Lemma ingest_touches_one_day_witness :
  let e := {| total_miles := 12; start_time := 900;
              start_location := Some (0, 0)%float; end_location := None;
              first_movement_time := Some 950%float; last_movement_time := None;
              total_travel_time := 0; last_update_time := 950;
              last_movement_update := None |} in
  let w := Tracker (Driver 0 0 1000 0 None (Some (0, 0)%float))
                   [Point 0 0 1000] {["2025-09-14" := e]} [] in
  daily_stats (fst (process_fetched_location single_day planar_distance
                      0.05 0 (clock_at 1060) w)) !! "2025-09-14"
  = Some e.
Proof.
  intros e w.
  rewrite (ingest_touches_one_day single_day planar_distance
             0.05 0 (clock_at 1060) w "2025-09-14"); [reflexivity|discriminate].
Defined.

(** X12 on a segment of 0.05 miles in a minute, the first of its day. *)
Lemma realistic_segment_accounted_witness :
  let w := Tracker (Driver 0 0 1000 0 None (Some (0, 0)%float))
                   [Point 0 0 1000; Point 0.05 0 1060] ∅ [] in
  exists w',
    handle_segment_update_for_new_point single_day planar_distance
      0.05 0 1060 w = (w', Ok true)
    /\ get_daily_mileage "2025-09-15" w' = 0.05%float.
Proof.
  intros w.
  destruct (realistic_segment_accounted single_day planar_distance
              0.05 0 1060 w (Point 0 0 1000) (0.05 / (60 / 3600))%float
              ltac:(vm_compute; lia) eq_refl eq_refl eq_refl eq_refl eq_refl)
    as (w' & e' & Hrun & _ & Hmiles & _).
  exists w'. split; [exact Hrun|]. exact (eq_trans Hmiles eq_refl).
Defined.

(** X14 on a disk and no cache. *)
Lemma history_saved_then_loaded_witness :
  let b := {| redis_client := None;
              disk := {| disk_ok := true; files := ∅ |} |} in
  let history :=
    JList [JDict [("latitude", JFloat 32.3); ("longitude", JFloat (-86.3));
                  ("timestamp", JFloat 1000)]] in
  exists b',
    save_historical_data history b = Ok b'
    /\ load_historical_data b' = Ok history.
Proof.
  intros b history.
  destruct (save_historical_data history b) as [b'|] eqn:Hsave;
    [|vm_compute in Hsave; discriminate].
  exists b'. split; [reflexivity|].
  apply (history_saved_then_loaded history b b');
    [reflexivity|right; reflexivity|exact Hsave].
Defined.

(** X15 on a cache that answers. *)
Lemma daily_stats_saved_then_loaded_witness :
  let stats := JDict [("2025-09-15", JDict [("total_miles", JFloat 12.5)])] in
  exists b',
    save_daily_stats stats cache_up_state = Ok b'
    /\ load_daily_stats b' = Ok stats.
Proof.
  intros stats.
  destruct (save_daily_stats stats cache_up_state) as [b'|] eqn:Hsave;
    [|vm_compute in Hsave; discriminate].
  exists b'. split; [reflexivity|].
  apply (daily_stats_saved_then_loaded stats cache_up_state b');
    [reflexivity|left; eexists; split; reflexivity|exact Hsave].
Defined.

(** X16 on a cache that answers. *)
Lemma last_location_saved_then_loaded_witness :
  exists b',
    save_last_location (JFloat 32.3) (JFloat (-86.3)) (JFloat 1000)
      cache_up_state = Ok b'
    /\ load_last_location b'
       = Ok (JDict [("latitude", JFloat 32.3); ("longitude", JFloat (-86.3));
                    ("timestamp", JFloat 1000)]).
Proof.
  destruct (save_last_location (JFloat 32.3) (JFloat (-86.3)) (JFloat 1000)
              cache_up_state) as [b'|] eqn:Hsave;
    [|vm_compute in Hsave; discriminate].
  exists b'. split; [reflexivity|].
  apply (last_location_saved_then_loaded _ _ _ cache_up_state b');
    [left; eexists; split; reflexivity|exact Hsave].
Defined.

(** X17 on a cache that is configured and does not answer. *)
Lemma created_daily_file_then_loaded_witness :
  let b := {| redis_client := Some {| redis_up := false; redis_db := ∅ |};
              disk := {| disk_ok := true; files := ∅ |} |} in
  exists b1 data,
    create_empty_daily_file "2025-09-16" (JFloat 1000) (JFloat 32.3)
      (JFloat (-86.3)) b = Ok (b1, data)
    /\ load_daily_file decimal_int_of_str utc_minutes_since_start_of_day
         "2025-09-16" b1 = Ok (b1, Some data).
Proof.
  intros b.
  destruct (create_empty_daily_file "2025-09-16" (JFloat 1000) (JFloat 32.3)
              (JFloat (-86.3)) b) as [[b1 data]|] eqn:Hcreate;
    [|vm_compute in Hcreate; discriminate].
  exists b1, data. split; [reflexivity|].
  exact (created_daily_file_then_loaded decimal_int_of_str
           utc_minutes_since_start_of_day _ _ _ _ b b1 data Hcreate).
Defined.

(** X18 on the old-format record with two samples. *)
Lemma migration_minute_entries_witness :
  exists new_data minute_locations,
    migrate_old_daily_format decimal_int_of_str utc_minutes_since_start_of_day
      old_daily_record = Ok new_data
    /\ py_get new_data "minute_locations" JNull = Ok (JList minute_locations)
    /\ length minute_locations = 2%nat.
Proof.
  destruct (migrate_old_daily_format decimal_int_of_str
              utc_minutes_since_start_of_day old_daily_record)
    as [new_data|] eqn:Hrun; [|vm_compute in Hrun; discriminate].
  unfold old_daily_record in Hrun.
  match type of Hrun with
  | migrate_old_daily_format _ _ (JDict ?items) = _ =>
      destruct (migration_minute_entries decimal_int_of_str
                  utc_minutes_since_start_of_day items _ new_data eq_refl Hrun)
        as (minute_locations & Hget & Hlen)
  end.
  exists new_data, minute_locations. split; [reflexivity|]. by split.
Defined.

(** X19 on a disk and no cache, with nothing stored. *)
Lemma get_current_day_data_idempotent_witness :
  let b := {| redis_client := None;
              disk := {| disk_ok := true; files := ∅ |} |} in
  exists b1 data,
    get_current_day_data decimal_int_of_str utc_minutes_since_start_of_day
      "2025-09-15" (JFloat 1000) (JFloat 32.3) (JFloat (-86.3)) b = Ok (b1, data)
    /\ get_current_day_data decimal_int_of_str utc_minutes_since_start_of_day
         "2025-09-15" (JFloat 2000) (JFloat 33) (JFloat (-87)) b1 = Ok (b1, data).
Proof.
  intros b.
  destruct (get_current_day_data decimal_int_of_str
              utc_minutes_since_start_of_day
              "2025-09-15" (JFloat 1000) (JFloat 32.3) (JFloat (-86.3)) b)
    as [[b1 data]|] eqn:Hrun; [|vm_compute in Hrun; discriminate].
  exists b1, data. split; [reflexivity|].
  exact (get_current_day_data_idempotent decimal_int_of_str
           utc_minutes_since_start_of_day _ _ _ _ b b1 data Hrun _ _ _).
Defined.

(** X20 on two days that started at 900 and at 500, before a first GPS
    fix at 1000. *)
Lemma find_earliest_daily_start_is_earliest_witness :
  let day (t : float) :=
    {| total_miles := 12; start_time := t;
       start_location := Some (0, 0)%float; end_location := None;
       first_movement_time := None; last_movement_time := None;
       total_travel_time := 0; last_update_time := t;
       last_movement_update := None |} in
  let stats := [("2025-09-14", day 900%float); ("2025-09-13", day 500%float)] in
  exists e,
    find_earliest_daily_start stats 1000 = Some e
    /\ ds_date e = "2025-09-13"
    /\ forall date_str entry,
         In (date_str, entry) stats ->
         start_location entry <> None ->
         float_truthy (start_time entry) = true ->
         (start_time entry <? 1000)%float = true ->
         (start_time entry <? ds_start_time e)%float = false.
Proof.
  intros day stats.
  destruct (find_earliest_daily_start stats 1000) as [e|] eqn:Hfind;
    [|vm_compute in Hfind; discriminate].
  exists e. split; [reflexivity|]. split.
  - vm_compute in Hfind. by injection Hfind as <-.
  - exact (proj2 (find_earliest_daily_start_is_earliest stats 1000 e Hfind)).
Defined.

(** X21 on a day that started before the first GPS fix and has no start
    location. *)
Lemma find_earliest_daily_start_none_witness :
  let entry :=
    {| total_miles := 0; start_time := 500;
       start_location := None; end_location := None;
       first_movement_time := None; last_movement_time := None;
       total_travel_time := 0; last_update_time := 500;
       last_movement_update := None |} in
  find_earliest_daily_start [("2025-09-14", entry)] 1000 = None
  /\ start_location entry = None.
Proof.
  intros entry. split; [reflexivity|].
  apply (find_earliest_daily_start_none [("2025-09-14", entry)] 1000
           "2025-09-14" entry);
    [reflexivity|by left|reflexivity|reflexivity].
Defined.

(** X22 on five fixes sampled with a step of 2, the first of them half
    a mile from the earliest daily start: the fixes of index 2 and 4 are
    kept. *)
Lemma sample_history_points_sampled_witness :
  let sorted_history :=
    [Point 0 0 1000; Point 0.1 0 1060; Point 0.2 0 1120; Point 0.3 0 1180;
     Point 0.4 0 1240] in
  let e := {| ds_latitude := 0.5; ds_longitude := 0; ds_timestamp := 500;
              ds_date := "2025-09-14"; ds_start_time := 500 |} in
  exists sampled,
    Partial.sample_history_points
      (fun lat1 lon1 lat2 lon2 => Some (planar_distance lat1 lon1 lat2 lon2))
      sorted_history (Some e) 2 = Ok sampled
    /\ forall k : nat,
         sampled !! k
         = journey_point_of <$> sorted_history !! (Z.to_nat 2 + k * Z.to_nat 2)%nat.
Proof.
  intros sorted_history e.
  exact (sample_history_points_sampled
           (fun lat1 lon1 lat2 lon2 => Some (planar_distance lat1 lon1 lat2 lon2))
           sorted_history (Some e) 2 ltac:(lia)).
Defined.
